(** * CaffeineTake: the mode / execution-state coordinator of [CaffeineApp]

    A shallow embedding of [Src/CaffeineTake/CaffeineApp.cpp]: the member
    fields that carry the coordinator state, the handlers that mutate them,
    and the calls the handlers make to the operating system and to the
    notification icon, recorded as a log of effects. *)

From Stdlib Require Import ZArith List Bool Lia.
Import ListNotations.
Local Open Scope Z_scope.

(** ** Data model *)

(** [enum class CaffeineMode]. *)
Module CaffeineMode.
Inductive t : Set := Disabled | Enabled | Auto | Timer.

Definition eqb (a b : t) : bool :=
  match a, b with
  | Disabled, Disabled | Enabled, Enabled | Auto, Auto | Timer, Timer => true
  | _, _ => false
  end.
End CaffeineMode.

(** [enum class CaffeineState]. *)
Module CaffeineState.
Inductive t : Set := Inactive | Active.

Definition eqb (a b : t) : bool :=
  match a, b with
  | Inactive, Inactive | Active, Active => true
  | _, _ => false
  end.
End CaffeineState.

(** [enum class SessionState]. *)
Module SessionState.
Inductive t : Set := Unlocked | Locked.

Definition eqb (a b : t) : bool :=
  match a, b with
  | Unlocked, Unlocked | Locked, Locked => true
  | _, _ => false
  end.
End SessionState.

(** The two members of a per-mode settings block that this file reads
    ([mSettings->Standard.KeepDisplayOn] and so on).  The blocks have other
    members (process lists, intervals); no function embedded here reads
    them. *)
Record ModeSettings : Set := mkModeSettings {
  KeepDisplayOn       : bool;
  DisableOnLockScreen : bool
}.

(** [struct Settings], restricted in the same way. *)
Record Settings : Set := mkSettings {
  Standard : ModeSettings;
  Auto     : ModeSettings;
  Timer    : ModeSettings
}.

(** The icon and the tool tip that [UpdateIcon] and [UpdateTip] select. *)
Inductive Icon : Set :=
| CaffeineDisabled | CaffeineEnabled
| CaffeineAutoInactive | CaffeineAutoActive
| CaffeineTimerInactive | CaffeineTimerActive.

Inductive Tip : Set :=
| IDS_CAFFEINE_DISABLED | IDS_CAFFEINE_ENABLED
| IDS_CAFFEINE_AUTO_INACTIVE | IDS_CAFFEINE_AUTO_ACTIVE
| IDS_CAFFEINE_TIMER_INACTIVE | IDS_CAFFEINE_TIMER_ACTIVE.

(** The member fields of [CaffeineApp] that the coordinator reads and
    writes. *)
Record CaffeineApp : Set := mkApp {
  mSettings      : Settings;
  mSessionState  : SessionState.t;
  mCaffeineState : CaffeineState.t;
  mCaffeineMode  : CaffeineMode.t;
  mKeepDisplayOn : bool
}.

(** What a handler does to the world outside the object, in the order it
    does it.  [SetThreadExecutionState] is logged with its argument and with
    the value the system returned. *)
Inductive Effect : Set :=
| CallSetThreadExecutionState (flags ret : Z)
| CallModeStart (mode : CaffeineMode.t)
| CallModeStop (mode : CaffeineMode.t)
| CallUpdateIcon (icon : Icon)
| CallUpdateTip (tip : Tip)
| CallUpdateAppIcon
| CallSaveSettings (s : Settings).

(** The object together with the log of its effects, newest first: every
    tail of the log is the log of an earlier moment. *)
Record World : Set := mkWorld {
  app     : CaffeineApp;
  effects : list Effect
}.

(** ** Windows constants (winnt.h, WinUser.h, WtsApi32.h) *)

Definition ES_SYSTEM_REQUIRED  : Z := 0x00000001.
Definition ES_DISPLAY_REQUIRED : Z := 0x00000002.
Definition ES_CONTINUOUS       : Z := 0x80000000.

Definition WM_WTSSESSION_CHANGE : Z := 0x02B1.
Definition WTS_SESSION_LOCK     : Z := 0x7.
Definition WTS_SESSION_UNLOCK   : Z := 0x8.

(** ** What lies outside the source file *)

(** Modelled from the spec: the classes of [mDisabledMode], [mEnabledMode],
    [mAutoMode] and [mTimerMode] are not in the source.  The spec has a policy
    talk to the coordinator through activity reports only, so [mode_Start]
    and [mode_Stop] give the reports a policy makes, in order, before its
    [Start] or [Stop] returns ([true] is a call of [EnableCaffeine], [false]
    of [DisableCaffeine]).  The other members are what the source leaves to
    its headers and to the system: the number of the application's custom
    message, the value of [Settings()], and the value the system returns from
    a call of [SetThreadExecutionState], given everything done so far. *)
Record Host : Type := mkHost {
  WM_CAFFEINE_TAKE_UPDATE_EXECUTION_STATE : Z;
  Settings_default : Settings;
  os_SetThreadExecutionState : list Effect -> Z -> Z;
  mode_Start : CaffeineMode.t -> list bool;
  mode_Stop  : CaffeineMode.t -> list bool
}.

(** Modelled from the spec: section 4.2, the reports each policy makes from
    [Start] (Disabled reports inactive once, Enabled and Timer report active
    once, Auto waits for its first inspection) and from [Stop] (none). *)
Definition spec_Start (mode : CaffeineMode.t) : list bool :=
  match mode with
  | CaffeineMode.Disabled => [false]
  | CaffeineMode.Enabled  => [true]
  | CaffeineMode.Auto     => []
  | CaffeineMode.Timer    => [true]
  end.

Definition spec_Stop (mode : CaffeineMode.t) : list bool := [].

(** What the file system and the JSON library make of the settings file, by
    the branch of [Init] and [LoadSettings] it leads to: no file
    ([fs::exists] is false), a file that cannot be opened, text that
    [json::parse] discards, JSON from which [get<Settings>] throws, and JSON
    that gives settings. *)
Inductive SettingsFile : Set :=
| FileAbsent
| FileUnreadable
| FileNotJson
| FileNotSettings
| FileSettings (s : Settings).

(** What [Init] asks of its surroundings: the settings file, the answer of
    [IsSessionLocked()], and whether [mNotifyIcon.Init()] succeeded. *)
Record Startup : Set := mkStartup {
  settingsFile    : SettingsFile;
  IsSessionLocked : SessionState.t;
  NotifyIcon_Init : bool
}.

(** What the message loop delivers: a mode chosen from the menu
    ([SetCaffeineMode]), a click ([ToggleCaffeineMode]), the settings dialog
    with its result, a custom message (the report of a policy) and a system
    message (a session change). *)
Inductive Stimulus : Set :=
| SetMode (mode : CaffeineMode.t)
| Toggle
| SettingsDialog (dialog : option Settings)
| CustomMessage (uMsg wParam : Z)
| SystemMessage (uMsg wParam : Z).

(** ** A state monad over [World] *)

Definition M (A : Type) : Type := World -> A * World.

Definition ret {A : Type} (x : A) : M A := fun w => (x, w).

Definition bind {A B : Type} (c : M A) (k : A -> M B) : M B :=
  fun w => let (x, w') := c w in k x w'.

Declare Scope app_scope.
Delimit Scope app_scope with app.
Notation "x <- c ;; k" := (bind c (fun x => k))
  (at level 61, c at next level, right associativity) : app_scope.
Notation "c ;; k" := (bind c (fun _ => k))
  (at level 61, right associativity) : app_scope.

Definition this : M CaffeineApp := fun w => (app w, w).

Definition assign (f : CaffeineApp -> CaffeineApp) : M unit :=
  fun w => (tt, mkWorld (f (app w)) (effects w)).

Definition emit (e : Effect) : M unit :=
  fun w => (tt, mkWorld (app w) (e :: effects w)).

Definition exec {A : Type} (c : M A) (w : World) : World := snd (c w).
Definition result {A : Type} (c : M A) (w : World) : A := fst (c w).

Definition set_mSettings (s : Settings) (a : CaffeineApp) : CaffeineApp :=
  mkApp s (mSessionState a) (mCaffeineState a) (mCaffeineMode a) (mKeepDisplayOn a).
Definition set_mSessionState (s : SessionState.t) (a : CaffeineApp) : CaffeineApp :=
  mkApp (mSettings a) s (mCaffeineState a) (mCaffeineMode a) (mKeepDisplayOn a).
Definition set_mCaffeineState (s : CaffeineState.t) (a : CaffeineApp) : CaffeineApp :=
  mkApp (mSettings a) (mSessionState a) s (mCaffeineMode a) (mKeepDisplayOn a).
Definition set_mCaffeineMode (m : CaffeineMode.t) (a : CaffeineApp) : CaffeineApp :=
  mkApp (mSettings a) (mSessionState a) (mCaffeineState a) m (mKeepDisplayOn a).
Definition set_mKeepDisplayOn (b : bool) (a : CaffeineApp) : CaffeineApp :=
  mkApp (mSettings a) (mSessionState a) (mCaffeineState a) (mCaffeineMode a) b.

(** ** The handlers *)

Section Handlers.

Variable host : Host.

Local Open Scope app_scope.

(** [SetThreadExecutionState(flags)]: the system's return value, [NULL] for
    a refused call. *)
Definition SetThreadExecutionState (flags : Z) : M Z :=
  fun w =>
    let r := os_SetThreadExecutionState host (effects w) flags in
    (r, mkWorld (app w) (CallSetThreadExecutionState flags r :: effects w)).

(** [CaffeineApp::UpdateIcon], up to the choice of the icon; whether the
    notification icon already shows it is the icon's business. *)
Definition UpdateIcon : M unit :=
  a <- this ;;
  let icon :=
    match mCaffeineMode a with
    | CaffeineMode.Disabled => CaffeineDisabled
    | CaffeineMode.Enabled => CaffeineEnabled
    | CaffeineMode.Auto =>
        if CaffeineState.eqb (mCaffeineState a) CaffeineState.Inactive
        then CaffeineAutoInactive else CaffeineAutoActive
    | CaffeineMode.Timer =>
        if CaffeineState.eqb (mCaffeineState a) CaffeineState.Inactive
        then CaffeineTimerInactive else CaffeineTimerActive
    end in
  emit (CallUpdateIcon icon).

(** [CaffeineApp::UpdateTip], in the same way. *)
Definition UpdateTip : M unit :=
  a <- this ;;
  let tip :=
    match mCaffeineMode a with
    | CaffeineMode.Disabled => IDS_CAFFEINE_DISABLED
    | CaffeineMode.Enabled => IDS_CAFFEINE_ENABLED
    | CaffeineMode.Auto =>
        if CaffeineState.eqb (mCaffeineState a) CaffeineState.Inactive
        then IDS_CAFFEINE_AUTO_INACTIVE else IDS_CAFFEINE_AUTO_ACTIVE
    | CaffeineMode.Timer =>
        if CaffeineState.eqb (mCaffeineState a) CaffeineState.Inactive
        then IDS_CAFFEINE_TIMER_INACTIVE else IDS_CAFFEINE_TIMER_ACTIVE
    end in
  emit (CallUpdateTip tip).

(** [CaffeineApp::UpdateExecutionState].  [noNeed] is the condition of the
    two early returns ("No need to update execution state"). *)
Definition UpdateExecutionState (state : CaffeineState.t) : M unit :=
  a <- this ;;
  let '(keepDisplayOn, disableOnLock) :=
    match mCaffeineMode a with
    | CaffeineMode.Disabled => (false, false)
    | CaffeineMode.Enabled =>
        (KeepDisplayOn (Standard (mSettings a)),
         DisableOnLockScreen (Standard (mSettings a)))
    | CaffeineMode.Auto =>
        (KeepDisplayOn (Auto (mSettings a)),
         DisableOnLockScreen (Auto (mSettings a)))
    | CaffeineMode.Timer =>
        (KeepDisplayOn (Timer (mSettings a)),
         DisableOnLockScreen (Timer (mSettings a)))
    end in
  let notDisabled := negb (CaffeineMode.eqb (mCaffeineMode a) CaffeineMode.Disabled) in
  let keepDisplayOn :=
    if notDisabled
    then if SessionState.eqb (mSessionState a) SessionState.Locked && keepDisplayOn
         then negb disableOnLock
         else keepDisplayOn
    else keepDisplayOn in
  let noNeed :=
    if notDisabled
    then CaffeineState.eqb (mCaffeineState a) state
         && Bool.eqb (mKeepDisplayOn a) keepDisplayOn
    else CaffeineState.eqb (mCaffeineState a) state in
  if noNeed then ret tt
  else
    assign (set_mCaffeineState state) ;;
    assign (set_mKeepDisplayOn keepDisplayOn) ;;
    a <- this ;;
    let flags := ES_CONTINUOUS in
    let flags :=
      if CaffeineState.eqb (mCaffeineState a) CaffeineState.Active
      then
        let flags := Z.lor flags ES_SYSTEM_REQUIRED in
        if keepDisplayOn then Z.lor flags ES_DISPLAY_REQUIRED else flags
      else flags in
    r <- SetThreadExecutionState flags ;;
    if Z.eqb r 0 then ret tt
    else UpdateIcon ;; UpdateTip.

(** [CaffeineApp::RefreshExecutionState]. *)
Definition RefreshExecutionState : M unit :=
  a <- this ;;
  UpdateExecutionState (mCaffeineState a).

(** [CaffeineApp::OnCustomMessage]; [static_cast<bool>(wParam)] is
    [wParam != 0]. *)
Definition OnCustomMessage (uMsg wParam : Z) : M unit :=
  if Z.eqb uMsg (WM_CAFFEINE_TAKE_UPDATE_EXECUTION_STATE host)
  then
    if negb (Z.eqb wParam 0)
    then UpdateExecutionState CaffeineState.Active
    else UpdateExecutionState CaffeineState.Inactive
  else ret tt.

(** [CaffeineApp::OnSystemMessage]. *)
Definition OnSystemMessage (uMsg wParam : Z) : M bool :=
  if Z.eqb uMsg WM_WTSSESSION_CHANGE
  then
    if Z.eqb wParam WTS_SESSION_LOCK
    then
      assign (set_mSessionState SessionState.Locked) ;;
      RefreshExecutionState ;;
      ret true
    else if Z.eqb wParam WTS_SESSION_UNLOCK
    then
      assign (set_mSessionState SessionState.Unlocked) ;;
      RefreshExecutionState ;;
      ret true
    else ret false
  else ret false.

(** [CaffeineApp::EnableCaffeine] and [CaffeineApp::DisableCaffeine].
    [SendCustomMessage] hands the message to the window procedure of the
    notification icon, which calls [OnCustomMessage]; the handler has run when
    [SendCustomMessage] returns. *)
Definition EnableCaffeine : M bool :=
  OnCustomMessage (WM_CAFFEINE_TAKE_UPDATE_EXECUTION_STATE host) 1 ;;
  ret true.

Definition DisableCaffeine : M bool :=
  OnCustomMessage (WM_CAFFEINE_TAKE_UPDATE_EXECUTION_STATE host) 0 ;;
  ret true.

(** The reports a policy makes while it starts or stops. *)
Fixpoint report (decisions : list bool) : M unit :=
  match decisions with
  | [] => ret tt
  | active :: rest =>
      (if active then EnableCaffeine else DisableCaffeine) ;;
      report rest
  end.

(** [CaffeineApp::StartMode] and [CaffeineApp::StopMode]: each dispatches on
    [mCaffeineMode] to the mode object of that mode. *)
Definition StartMode : M unit :=
  a <- this ;;
  emit (CallModeStart (mCaffeineMode a)) ;;
  report (mode_Start host (mCaffeineMode a)).

Definition StopMode : M unit :=
  a <- this ;;
  emit (CallModeStop (mCaffeineMode a)) ;;
  report (mode_Stop host (mCaffeineMode a)).

(** [CaffeineApp::SetCaffeineMode]. *)
Definition SetCaffeineMode (mode : CaffeineMode.t) : M unit :=
  StopMode ;;
  assign (set_mCaffeineMode mode) ;;
  StartMode ;;
  UpdateIcon ;;
  UpdateTip.

(** The [switch] of [CaffeineApp::ToggleCaffeineMode]. *)
Definition nextMode (mode : CaffeineMode.t) : CaffeineMode.t :=
  match mode with
  | CaffeineMode.Disabled => CaffeineMode.Enabled
  | CaffeineMode.Enabled => CaffeineMode.Auto
  | CaffeineMode.Auto => CaffeineMode.Timer
  | CaffeineMode.Timer => CaffeineMode.Disabled
  end.

(** [CaffeineApp::ToggleCaffeineMode]. *)
Definition ToggleCaffeineMode : M unit :=
  a <- this ;;
  let mode := nextMode (mCaffeineMode a) in
  SetCaffeineMode mode.

(** [CaffeineApp::OnClick]. *)
Definition OnClick (x y : Z) : M unit := ToggleCaffeineMode.

(** [CaffeineApp::SaveSettings].  Its result says whether the file could be
    opened; every caller discards it. *)
Definition SaveSettings : M unit :=
  a <- this ;;
  emit (CallSaveSettings (mSettings a)).

(** [CaffeineApp::LoadSettings], on what the file system and the JSON
    library make of the settings file. *)
Definition LoadSettings (file : SettingsFile) : M bool :=
  match file with
  | FileAbsent | FileUnreadable => ret false
  | FileNotJson => ret false
  | FileNotSettings =>
      assign (set_mSettings (Settings_default host)) ;;
      ret true
  | FileSettings s =>
      assign (set_mSettings s) ;;
      ret true
  end.

(** [CaffeineApp::ShowSettingsDialog]; [dialog] is the result of the dialog
    when the user accepted it.  The Timer block is not copied. *)
Definition ShowSettingsDialog (dialog : option Settings) : M bool :=
  match dialog with
  | Some newSettings =>
      assign (fun a =>
        set_mSettings
          (mkSettings (Standard newSettings) (Auto newSettings) (Timer (mSettings a))) a) ;;
      RefreshExecutionState ;;
      SaveSettings ;;
      ret true
  | None => ret true
  end.

(** The constructor of [CaffeineApp]. *)
Definition CaffeineApp_new : World :=
  mkWorld
    (mkApp (Settings_default host) SessionState.Unlocked
           CaffeineState.Inactive CaffeineMode.Disabled false)
    [].

(** [CaffeineApp::Init]. *)
Definition Init (s : Startup) : M bool :=
  loaded <-
    (match settingsFile s with
     | FileAbsent => SaveSettings ;; ret true
     | file => LoadSettings file
     end) ;;
  if negb loaded then ret false
  else
    assign (set_mSessionState (IsSessionLocked s)) ;;
    if negb (NotifyIcon_Init s) then ret false
    else
      a <- this ;;
      SetCaffeineMode (mCaffeineMode a) ;;
      emit CallUpdateAppIcon ;;
      ret true.

(** One stimulus: the call of a handler by the message loop. *)
Definition handle (s : Stimulus) : M unit :=
  match s with
  | SetMode mode => SetCaffeineMode mode
  | Toggle => ToggleCaffeineMode
  | SettingsDialog dialog => ShowSettingsDialog dialog ;; ret tt
  | CustomMessage uMsg wParam => OnCustomMessage uMsg wParam
  | SystemMessage uMsg wParam => OnSystemMessage uMsg wParam ;; ret tt
  end.

(** The stimuli of a run, handled one after the other. *)
Fixpoint run (stimuli : list Stimulus) (w : World) : World :=
  match stimuli with
  | [] => w
  | s :: rest => run rest (exec (handle s) w)
  end.

(** The worlds the program can be in: constructed, initialised, then driven
    by the message loop.  The stimuli are handled whatever [Init] returned,
    so that nothing rests on what the caller of [Init] does with its
    result. *)
Definition reachable (s : Startup) (stimuli : list Stimulus) : World :=
  run stimuli (exec (Init s) CaffeineApp_new).

End Handlers.

(** ** Reading the state and the log *)

(** The settings block of the active mode; Disabled has none. *)
Definition modeSettings (a : CaffeineApp) : option ModeSettings :=
  match mCaffeineMode a with
  | CaffeineMode.Disabled => None
  | CaffeineMode.Enabled => Some (Standard (mSettings a))
  | CaffeineMode.Auto => Some (Auto (mSettings a))
  | CaffeineMode.Timer => Some (Timer (mSettings a))
  end.

(** The display flag [UpdateExecutionState] arrives at before it compares
    and publishes. *)
Definition desiredKeepDisplayOn (a : CaffeineApp) : bool :=
  match modeSettings a with
  | None => false
  | Some c =>
      if SessionState.eqb (mSessionState a) SessionState.Locked && KeepDisplayOn c
      then negb (DisableOnLockScreen c)
      else KeepDisplayOn c
  end.

(** The pair [UpdateExecutionState state] wants recorded, and the pair that
    is recorded. *)
Definition desired (a : CaffeineApp) (state : CaffeineState.t) : CaffeineState.t * bool :=
  (state, desiredKeepDisplayOn a).

Definition recorded (a : CaffeineApp) : CaffeineState.t * bool :=
  (mCaffeineState a, mKeepDisplayOn a).

(** The desired pair in the spec's words (section 4.1, steps 1 and 2), to be
    compared with [desired]: in Disabled mode it is Inactive without
    display-on, whatever activity is requested; in the other modes it is the
    requested state with the display setting of the mode, suppressed on the
    lock screen. *)
Definition spec_desired (a : CaffeineApp) (state : CaffeineState.t) : CaffeineState.t * bool :=
  match mCaffeineMode a with
  | CaffeineMode.Disabled => (CaffeineState.Inactive, false)
  | _ => (state, desiredKeepDisplayOn a)
  end.

(** The argument of [SetThreadExecutionState] for a state and a display
    flag. *)
Definition executionFlags (state : CaffeineState.t) (keepDisplayOn : bool) : Z :=
  match state with
  | CaffeineState.Inactive => ES_CONTINUOUS
  | CaffeineState.Active =>
      if keepDisplayOn
      then Z.lor (Z.lor ES_CONTINUOUS ES_SYSTEM_REQUIRED) ES_DISPLAY_REQUIRED
      else Z.lor ES_CONTINUOUS ES_SYSTEM_REQUIRED
  end.

(** [flags & flag] is not zero. *)
Definition hasFlag (flags flag : Z) : bool := negb (Z.land flags flag =? 0).

(** The effects of [after] that [before] did not have yet, newest first. *)
Definition since (before after : World) : list Effect :=
  firstn (length (effects after) - length (effects before))%nat (effects after).

(** The arguments of the calls of [SetThreadExecutionState] in a log, newest
    first. *)
Fixpoint osCalls (log : list Effect) : list Z :=
  match log with
  | [] => []
  | CallSetThreadExecutionState flags _ :: past => flags :: osCalls past
  | _ :: past => osCalls past
  end.

(** One occurrence of [mode] less. *)
Fixpoint stopOne (mode : CaffeineMode.t) (running : list CaffeineMode.t) : list CaffeineMode.t :=
  match running with
  | [] => []
  | m :: rest => if CaffeineMode.eqb m mode then rest else m :: stopOne mode rest
  end.

(** The policies that a log has started and not stopped since. *)
Fixpoint running (log : list Effect) : list CaffeineMode.t :=
  match log with
  | [] => []
  | CallModeStart mode :: past => mode :: running past
  | CallModeStop mode :: past => stopOne mode (running past)
  | _ :: past => running past
  end.

(** A call of a policy's [Start] or [Stop]. *)
Definition isPolicyCall (e : Effect) : bool :=
  match e with
  | CallModeStart _ | CallModeStop _ => true
  | _ => false
  end.

(** [past] is the log of an earlier moment of [log]. *)
Definition earlier (past log : list Effect) : Prop :=
  exists later, log = later ++ past.

(** The modes a run of clicks passes through, oldest first. *)
Fixpoint modesVisited (host : Host) (clicks : nat) (w : World) : list CaffeineMode.t :=
  match clicks with
  | O => []
  | S n =>
      let w' := exec (ToggleCaffeineMode host) w in
      mCaffeineMode (app w') :: modesVisited host n w'
  end.

(** What a call of [UpdateExecutionState] that gets past the early returns
    leaves behind: the pair is recorded, the system is called, and the icon
    and the tip follow when the call was accepted. *)
Definition published (host : Host) (state : CaffeineState.t) (w : World) : World :=
  let k := desiredKeepDisplayOn (app w) in
  let a' := set_mKeepDisplayOn k (set_mCaffeineState state (app w)) in
  let flags := executionFlags state k in
  let r := os_SetThreadExecutionState host (effects w) flags in
  let w1 := mkWorld a' (CallSetThreadExecutionState flags r :: effects w) in
  if r =? 0 then w1
  else exec (bind (UpdateIcon) (fun _ => UpdateTip)) w1.

(** The condition of the early returns. *)
Definition noNeed (a : CaffeineApp) (state : CaffeineState.t) : bool :=
  match mCaffeineMode a with
  | CaffeineMode.Disabled => CaffeineState.eqb (mCaffeineState a) state
  | _ => CaffeineState.eqb (mCaffeineState a) state
         && Bool.eqb (mKeepDisplayOn a) (desiredKeepDisplayOn a)
  end.

(** ** The handlers as sequences of small steps *)

(** A step that touches no policy: the pair is recorded and the system
    called with its flags; one of the other effects is logged; the session
    state or the settings are assigned. *)
Inductive quiet : World -> World -> Prop :=
| quiet_record (w : World) (state : CaffeineState.t) (k : bool) (r : Z) :
    quiet w
      (mkWorld (set_mKeepDisplayOn k (set_mCaffeineState state (app w)))
               (CallSetThreadExecutionState (executionFlags state k) r :: effects w))
| quiet_note (w : World) (e : Effect) :
    isPolicyCall e = false -> osCalls [e] = [] ->
    quiet w (mkWorld (app w) (e :: effects w))
| quiet_session (w : World) (s : SessionState.t) :
    quiet w (mkWorld (set_mSessionState s (app w)) (effects w))
| quiet_settings (w : World) (s : Settings) :
    quiet w (mkWorld (set_mSettings s (app w)) (effects w)).

(** A step of the coordinator: a quiet one, the stop of the policy of the
    active mode, or the assignment of a mode together with the start of its
    policy while no policy runs. *)
Inductive atom : World -> World -> Prop :=
| atom_quiet (w w' : World) : quiet w w' -> atom w w'
| atom_stop (w : World) :
    atom w (mkWorld (app w) (CallModeStop (mCaffeineMode (app w)) :: effects w))
| atom_switch (w : World) (mode : CaffeineMode.t) :
    running (effects w) = [] ->
    atom w (mkWorld (set_mCaffeineMode mode (app w)) (CallModeStart mode :: effects w)).

(** Zero or more steps. *)
Inductive many (R : World -> World -> Prop) (w : World) : World -> Prop :=
| many_refl : many R w w
| many_step (w1 w2 : World) : many R w w1 -> R w1 w2 -> many R w w2.

(** ** Invariants of the log *)

(** Well-formed flags: [ES_CONTINUOUS] is there, and [ES_DISPLAY_REQUIRED]
    only together with [ES_SYSTEM_REQUIRED]. *)
Definition wellFormed (flags : Z) : Prop :=
  hasFlag flags ES_CONTINUOUS = true /\
  (hasFlag flags ES_DISPLAY_REQUIRED = true -> hasFlag flags ES_SYSTEM_REQUIRED = true).

(** The flags of the latest call of the system are those of the recorded
    pair. *)
Definition inSync (w : World) : Prop :=
  match osCalls (effects w) with
  | [] => True
  | flags :: _ => flags = executionFlags (mCaffeineState (app w)) (mKeepDisplayOn (app w))
  end.

(** At most the policy of the active mode runs, and at no earlier moment did
    more than one policy run. *)
Definition bracketed (w : World) : Prop :=
  (running (effects w) = [] \/ running (effects w) = [mCaffeineMode (app w)]) /\
  forall past, earlier past (effects w) -> (length (running past) <= 1)%nat.

(** ** Instances for the examples *)

Definition WM_APP : Z := 0x8000.

(** A system that accepts every call (it returns the flags set before, never
    [NULL] here) and one that refuses every call. *)
Definition accepting : list Effect -> Z -> Z := fun _ _ => ES_CONTINUOUS.
Definition refusing : list Effect -> Z -> Z := fun _ _ => 0.

Definition allOff : Settings :=
  mkSettings (mkModeSettings false false) (mkModeSettings false false)
             (mkModeSettings false false).

(** Display-on in every mode, given up on the lock screen in Enabled mode
    only. *)
Definition displayOn : Settings :=
  mkSettings (mkModeSettings true true) (mkModeSettings true false)
             (mkModeSettings true false).

(** A host with the policies of the spec. *)
Definition specHost (os : list Effect -> Z -> Z) : Host :=
  mkHost (WM_APP + 1) allOff os spec_Start spec_Stop.

Definition startup (file : SettingsFile) : Startup :=
  mkStartup file SessionState.Unlocked true.

(** A world with the given mode, session state and recorded pair, the
    settings [displayOn] and an empty log. *)
Definition worldOf (mode : CaffeineMode.t) (session : SessionState.t)
    (state : CaffeineState.t) (k : bool) : World :=
  mkWorld (mkApp displayOn session state mode k) [].

(** ** The rest of the application *)

(** [CaffeineApp::OnDpiChange]: the width and the height it passes to
    [mIcons.Load] (the result), then [UpdateIcon].  [int] division truncates;
    the product is taken in [int], so the model is the code as long as
    [16 * dpi] is an [int]. *)
Definition OnDpiChange (dpi : Z) : M (Z * Z) :=
  let w := Z.quot (16 * dpi) 96 in
  let h := Z.quot (16 * dpi) 96 in
  bind UpdateIcon (fun _ => ret (w, h)).

(** The numbers of the menu items (Resource.hpp); the labels of a [switch]
    are distinct. *)
Record MenuIds : Set := mkMenuIds {
  IDM_TOGGLE_CAFFEINE  : Z;
  IDM_DISABLE_CAFFEINE : Z;
  IDM_ENABLE_CAFFEINE  : Z;
  IDM_ENABLE_AUTO      : Z;
  IDM_SETTINGS         : Z;
  IDM_ABOUT            : Z;
  IDM_EXIT             : Z
}.

Definition menuItems (ids : MenuIds) : list Z :=
  [IDM_TOGGLE_CAFFEINE ids; IDM_DISABLE_CAFFEINE ids; IDM_ENABLE_CAFFEINE ids;
   IDM_ENABLE_AUTO ids; IDM_SETTINGS ids; IDM_ABOUT ids; IDM_EXIT ids].

(** What [OnContextMenuSelect] did besides what it did to the object: it
    handled a mode or settings item, showed the About dialog, asked the
    message loop to quit, or fell through the [switch]. *)
Inductive MenuAction : Set := MenuHandled | MenuAbout | MenuQuit | MenuIgnored.

(** [CaffeineApp::OnContextMenuSelect]; [dialog] is the result of the
    settings dialog, should it be shown. *)
Definition OnContextMenuSelect (host : Host) (ids : MenuIds)
    (dialog : option Settings) (selectedItem : Z) : M MenuAction :=
  if selectedItem =? IDM_TOGGLE_CAFFEINE ids then
    bind (ToggleCaffeineMode host) (fun _ => ret MenuHandled)
  else if selectedItem =? IDM_DISABLE_CAFFEINE ids then
    bind (SetCaffeineMode host CaffeineMode.Disabled) (fun _ => ret MenuHandled)
  else if selectedItem =? IDM_ENABLE_CAFFEINE ids then
    bind (SetCaffeineMode host CaffeineMode.Enabled) (fun _ => ret MenuHandled)
  else if selectedItem =? IDM_ENABLE_AUTO ids then
    bind (SetCaffeineMode host CaffeineMode.Auto) (fun _ => ret MenuHandled)
  else if selectedItem =? IDM_SETTINGS ids then
    bind (ShowSettingsDialog host dialog) (fun _ => ret MenuHandled)
  else if selectedItem =? IDM_ABOUT ids then ret MenuAbout
  else if selectedItem =? IDM_EXIT ids then ret MenuQuit
  else ret MenuIgnored.

(** The menu resources, and the one [CaffeineApp::OnContextMenuOpen] loads. *)
Inductive ContextMenu : Set :=
| IDC_CAFFEINE_DISABLED_CONTEXTMENU
| IDC_CAFFEINE_ENABLED_CONTEXTMENU
| IDC_CAFFEINE_AUTO_CONTEXTMENU.

Definition OnContextMenuOpen (a : CaffeineApp) : ContextMenu :=
  match mCaffeineMode a with
  | CaffeineMode.Disabled => IDC_CAFFEINE_DISABLED_CONTEXTMENU
  | CaffeineMode.Enabled => IDC_CAFFEINE_ENABLED_CONTEXTMENU
  | CaffeineMode.Auto => IDC_CAFFEINE_AUTO_CONTEXTMENU
  | CaffeineMode.Timer => IDC_CAFFEINE_AUTO_CONTEXTMENU
  end.

(** ** Reading more of the log *)

(** The tip that names an icon. *)
Definition tipOf (icon : Icon) : Tip :=
  match icon with
  | CaffeineDisabled => IDS_CAFFEINE_DISABLED
  | CaffeineEnabled => IDS_CAFFEINE_ENABLED
  | CaffeineAutoInactive => IDS_CAFFEINE_AUTO_INACTIVE
  | CaffeineAutoActive => IDS_CAFFEINE_AUTO_ACTIVE
  | CaffeineTimerInactive => IDS_CAFFEINE_TIMER_INACTIVE
  | CaffeineTimerActive => IDS_CAFFEINE_TIMER_ACTIVE
  end.

(** The icon and the tip of the latest [UpdateIcon] and [UpdateTip]. *)
Fixpoint lastIcon (log : list Effect) : option Icon :=
  match log with
  | [] => None
  | CallUpdateIcon icon :: _ => Some icon
  | _ :: past => lastIcon past
  end.

Fixpoint lastTip (log : list Effect) : option Tip :=
  match log with
  | [] => None
  | CallUpdateTip tip :: _ => Some tip
  | _ :: past => lastTip past
  end.

(** The icon an object with this mode and state is to show. *)
Definition iconOf (mode : CaffeineMode.t) (state : CaffeineState.t) : Icon :=
  match mode, state with
  | CaffeineMode.Disabled, _ => CaffeineDisabled
  | CaffeineMode.Enabled, _ => CaffeineEnabled
  | CaffeineMode.Auto, CaffeineState.Inactive => CaffeineAutoInactive
  | CaffeineMode.Auto, CaffeineState.Active => CaffeineAutoActive
  | CaffeineMode.Timer, CaffeineState.Inactive => CaffeineTimerInactive
  | CaffeineMode.Timer, CaffeineState.Active => CaffeineTimerActive
  end.

(** The state a report asks for. *)
Definition stateOf (active : bool) : CaffeineState.t :=
  if active then CaffeineState.Active else CaffeineState.Inactive.

(** The world after [n] calls of [ToggleCaffeineMode]. *)
Fixpoint toggled (host : Host) (n : nat) (w : World) : World :=
  match n with
  | O => w
  | S k => toggled host k (exec (ToggleCaffeineMode host) w)
  end.

(** An accepted settings dialog among the stimuli. *)
Definition isAcceptedDialog (s : Stimulus) : bool :=
  match s with
  | SettingsDialog (Some _) => true
  | _ => false
  end.

(** A system that never refuses. *)
Definition neverRefuses (host : Host) : Prop :=
  forall log flags, os_SetThreadExecutionState host log flags <> 0.

(** The icon and the tip chosen last, if any, are those of the mode and the
    state the object is in. *)
Definition upToDate (w : World) : Prop :=
  (forall icon, lastIcon (effects w) = Some icon ->
     icon = iconOf (mCaffeineMode (app w)) (mCaffeineState (app w))) /\
  (forall tip, lastTip (effects w) = Some tip ->
     tip = tipOf (iconOf (mCaffeineMode (app w)) (mCaffeineState (app w)))).

(** The mode a stimulus leaves, read off the stimulus and the mode before. *)
Definition modeStep (mode : CaffeineMode.t) (s : Stimulus) : CaffeineMode.t :=
  match s with
  | SetMode target => target
  | Toggle => nextMode mode
  | _ => mode
  end.

(** The session state a stimulus announces, if it is a lock or an unlock. *)
Definition sessionOf (s : Stimulus) : option SessionState.t :=
  match s with
  | SystemMessage uMsg wParam =>
      if uMsg =? WM_WTSSESSION_CHANGE then
        if wParam =? WTS_SESSION_LOCK then Some SessionState.Locked
        else if wParam =? WTS_SESSION_UNLOCK then Some SessionState.Unlocked
        else None
      else None
  | _ => None
  end.

Definition sessionStep (session : SessionState.t) (s : Stimulus) : SessionState.t :=
  match sessionOf s with
  | Some announced => announced
  | None => session
  end.

(** Numbers for the menu items, for the examples. *)
Definition exampleIds : MenuIds := mkMenuIds 101 102 103 104 105 106 107.

(** ** Basic facts *)

Lemma CaffeineState_eqb_eq (a b : CaffeineState.t) : CaffeineState.eqb a b = true <-> a = b.
Proof. destruct a, b; simpl; split; congruence. Qed.

Lemma CaffeineState_eqb_refl (a : CaffeineState.t) : CaffeineState.eqb a a = true.
Proof. now destruct a. Qed.

Lemma since_app (w w' : World) (new : list Effect) :
  effects w' = new ++ effects w -> since w w' = new.
Proof.
  unfold since. intros ->. rewrite length_app.
  replace (length new + length (effects w) - length (effects w))%nat
    with (length new) by lia.
  rewrite firstn_app, firstn_all, Nat.sub_diag. simpl. apply app_nil_r.
Qed.

Lemma since_same (w : World) : since w w = [].
Proof. apply since_app. reflexivity. Qed.

Lemma UpdateExecutionState_eq (host : Host) (state : CaffeineState.t) (w : World) :
  UpdateExecutionState host state w =
  (tt, if noNeed (app w) state then w else published host state w).
Proof.
  destruct w as [[s ss cs cm k] log].
  unfold UpdateExecutionState, published, noNeed, desiredKeepDisplayOn, modeSettings,
    executionFlags, bind, this, assign, ret, SetThreadExecutionState, exec; simpl.
  destruct cm; simpl.
  all: destruct (CaffeineState.eqb cs state) eqn:Ecs; simpl; try reflexivity.
  all: repeat match goal with
       | |- context [SessionState.eqb ?x ?y] => destruct x; simpl
       | |- context [KeepDisplayOn ?c] => destruct (KeepDisplayOn c) eqn:?; simpl
       | |- context [DisableOnLockScreen ?c] => destruct (DisableOnLockScreen c) eqn:?; simpl
       | |- context [Bool.eqb ?x _] => is_var x; destruct x; simpl
       end.
  all: try reflexivity.
  all: destruct state; simpl;
    match goal with
    | |- context [os_SetThreadExecutionState ?h ?l ?f =? 0] =>
        destruct (os_SetThreadExecutionState h l f =? 0); reflexivity
    end.
Qed.

(** The three ways a call of [UpdateExecutionState] can go: the early
    return, a refused system call, an accepted one. *)
Lemma UpdateExecutionState_cases (host : Host) (state : CaffeineState.t) (w : World) :
  let w' := exec (UpdateExecutionState host state) w in
  let k := desiredKeepDisplayOn (app w) in
  let flags := executionFlags state k in
  let r := os_SetThreadExecutionState host (effects w) flags in
  (noNeed (app w) state = true /\ w' = w) \/
  (noNeed (app w) state = false /\
   app w' = set_mKeepDisplayOn k (set_mCaffeineState state (app w)) /\
   ((r = 0 /\ effects w' = CallSetThreadExecutionState flags r :: effects w) \/
    (r <> 0 /\ exists icon tip,
       effects w' = CallUpdateTip tip :: CallUpdateIcon icon
                      :: CallSetThreadExecutionState flags r :: effects w))).
Proof.
  unfold exec. rewrite UpdateExecutionState_eq. simpl.
  destruct (noNeed (app w) state) eqn:E; [left; auto | right].
  split; [reflexivity|].
  unfold published.
  destruct (Z.eqb_spec
    (os_SetThreadExecutionState host (effects w)
       (executionFlags state (desiredKeepDisplayOn (app w)))) 0) as [H0|H0].
  - split; [reflexivity|]. left. split; [exact H0 | reflexivity].
  - split; [reflexivity|]. right. split; [exact H0|].
    unfold exec, bind, UpdateIcon, UpdateTip, this, emit. simpl. eauto.
Qed.

Lemma noNeed_recorded (a : CaffeineApp) (state : CaffeineState.t) :
  noNeed a state = true ->
  mCaffeineState a = state /\
  (mCaffeineMode a <> CaffeineMode.Disabled -> mKeepDisplayOn a = desiredKeepDisplayOn a).
Proof.
  unfold noNeed. destruct (mCaffeineMode a); intros H.
  - apply CaffeineState_eqb_eq in H. split; [exact H | congruence].
  - apply andb_true_iff in H as [H1 H2]. apply CaffeineState_eqb_eq in H1.
    apply eqb_prop in H2. auto.
  - apply andb_true_iff in H as [H1 H2]. apply CaffeineState_eqb_eq in H1.
    apply eqb_prop in H2. auto.
  - apply andb_true_iff in H as [H1 H2]. apply CaffeineState_eqb_eq in H1.
    apply eqb_prop in H2. auto.
Qed.

(** After the call the requested state is recorded, whichever way it went. *)
Lemma UpdateExecutionState_state (host : Host) (state : CaffeineState.t) (w : World) :
  mCaffeineState (app (exec (UpdateExecutionState host state) w)) = state.
Proof.
  destruct (UpdateExecutionState_cases host state w) as [[H ->]|[_ [-> _]]].
  - now apply noNeed_recorded in H.
  - reflexivity.
Qed.

(** In a mode other than Disabled the display flag computed from the
    settings and the session is recorded, whichever way the call went. *)
Lemma UpdateExecutionState_display (host : Host) (state : CaffeineState.t) (w : World) :
  mCaffeineMode (app w) <> CaffeineMode.Disabled ->
  mKeepDisplayOn (app (exec (UpdateExecutionState host state) w))
  = desiredKeepDisplayOn (app w).
Proof.
  intros Hm.
  destruct (UpdateExecutionState_cases host state w) as [[H ->]|[_ [-> _]]].
  - apply noNeed_recorded in H. now apply H.
  - reflexivity.
Qed.

(** The call leaves the mode, the session state and the settings alone. *)
Lemma UpdateExecutionState_frame (host : Host) (state : CaffeineState.t) (w : World) :
  let w' := exec (UpdateExecutionState host state) w in
  mCaffeineMode (app w') = mCaffeineMode (app w) /\
  mSessionState (app w') = mSessionState (app w) /\
  mSettings (app w') = mSettings (app w).
Proof.
  cbv zeta.
  destruct (UpdateExecutionState_cases host state w) as [[H ->]|[_ [-> _]]]; auto.
Qed.

(** The calls of the system made by one call of [UpdateExecutionState]:
    none, or one with the flags of the requested state and the computed
    display flag. *)
Lemma UpdateExecutionState_osCalls (host : Host) (state : CaffeineState.t) (w : World) :
  let w' := exec (UpdateExecutionState host state) w in
  (noNeed (app w) state = true /\ since w w' = []) \/
  (noNeed (app w) state = false /\
   osCalls (since w w') = [executionFlags state (desiredKeepDisplayOn (app w))]).
Proof.
  destruct (UpdateExecutionState_cases host state w)
    as [[H E]|[H [_ [[_ E]|[_ [icon [tip E]]]]]]]; simpl.
  - left. split; [exact H|]. rewrite E. apply since_same.
  - right. split; [exact H|].
    rewrite (since_app w _ [CallSetThreadExecutionState _ _]) by exact E. reflexivity.
  - right. split; [exact H|].
    rewrite (since_app w _ [CallUpdateTip tip; CallUpdateIcon icon;
                            CallSetThreadExecutionState _ _]) by exact E.
    reflexivity.
Qed.

Lemma executionFlags_bits (state : CaffeineState.t) (k : bool) :
  hasFlag (executionFlags state k) ES_CONTINUOUS = true /\
  hasFlag (executionFlags state k) ES_SYSTEM_REQUIRED
    = CaffeineState.eqb state CaffeineState.Active /\
  hasFlag (executionFlags state k) ES_DISPLAY_REQUIRED
    = CaffeineState.eqb state CaffeineState.Active && k.
Proof. destruct state, k; repeat split; reflexivity. Qed.

(** ** The display flag under a locked session *)

(** C1: a call of [UpdateExecutionState] in a mode other than Disabled (the
    mode has a settings block [c]) while the session is locked.  When the
    block has [DisableOnLockScreen], the recorded display flag is false after
    the call and a call of the system made by it does not carry
    [ES_DISPLAY_REQUIRED], whatever [KeepDisplayOn] says.  When the block has
    no [DisableOnLockScreen], the recorded display flag is the block's
    [KeepDisplayOn]: a requested display-on stays on. *)
Theorem UpdateExecutionState_lock_screen
    (host : Host) (state : CaffeineState.t) (w : World) (c : ModeSettings) :
  modeSettings (app w) = Some c ->
  mSessionState (app w) = SessionState.Locked ->
  let w' := exec (UpdateExecutionState host state) w in
  (DisableOnLockScreen c = true ->
     mKeepDisplayOn (app w') = false /\
     forall flags, In flags (osCalls (since w w')) ->
       hasFlag flags ES_DISPLAY_REQUIRED = false) /\
  (DisableOnLockScreen c = false ->
     mKeepDisplayOn (app w') = KeepDisplayOn c /\
     (KeepDisplayOn c = true -> mKeepDisplayOn (app w') = true)).
Proof.
  intros Hc Hl w'.
  assert (Hm : mCaffeineMode (app w) <> CaffeineMode.Disabled).
  { intros E. unfold modeSettings in Hc. rewrite E in Hc. discriminate. }
  assert (Hd : desiredKeepDisplayOn (app w)
               = KeepDisplayOn c && negb (DisableOnLockScreen c)).
  { unfold desiredKeepDisplayOn. rewrite Hc, Hl. simpl.
    destruct (KeepDisplayOn c), (DisableOnLockScreen c); reflexivity. }
  pose proof (UpdateExecutionState_display host state w Hm) as Hk.
  fold w' in Hk. rewrite Hd in Hk.
  split; intros Hdol; rewrite Hdol in *.
  - rewrite andb_false_r in Hk. split; [exact Hk|].
    intros flags Hin.
    destruct (UpdateExecutionState_osCalls host state w) as [[_ E]|[_ E]];
      fold w' in E; rewrite E in Hin; simpl in Hin; [contradiction|].
    destruct Hin as [<-|[]].
    destruct (executionFlags_bits state (desiredKeepDisplayOn (app w))) as [_ [_ ->]].
    rewrite Hd. simpl. now rewrite !andb_false_r.
  - rewrite andb_true_r in Hk. split; [exact Hk|]. intros E. now rewrite Hk.
Qed.

(** Enabled mode, locked, display-on requested and given up on the lock
    screen: the display flag recorded before is dropped. *)
Lemma UpdateExecutionState_lock_screen_witness :
  mKeepDisplayOn
    (app (exec (UpdateExecutionState (specHost accepting) CaffeineState.Active)
            (worldOf CaffeineMode.Enabled SessionState.Locked CaffeineState.Active true)))
  = false.
Proof.
  exact (proj1 (proj1
    (UpdateExecutionState_lock_screen (specHost accepting) CaffeineState.Active
       (worldOf CaffeineMode.Enabled SessionState.Locked CaffeineState.Active true)
       (mkModeSettings true true) eq_refl eq_refl) eq_refl)).
Defined.

(** ** A refused call of the system *)

(** The system refuses the call that the first activation makes: the pair
    recorded before the call, (Inactive, false), is not the pair recorded
    after it. *)
Lemma UpdateExecutionState_refused_changes_state :
  since (worldOf CaffeineMode.Enabled SessionState.Unlocked CaffeineState.Inactive false)
        (exec (UpdateExecutionState (specHost refusing) CaffeineState.Active)
           (worldOf CaffeineMode.Enabled SessionState.Unlocked CaffeineState.Inactive false))
    = [CallSetThreadExecutionState (executionFlags CaffeineState.Active true) 0] /\
  recorded (app (exec (UpdateExecutionState (specHost refusing) CaffeineState.Active)
              (worldOf CaffeineMode.Enabled SessionState.Unlocked CaffeineState.Inactive false)))
    <> recorded (app (worldOf CaffeineMode.Enabled SessionState.Unlocked
                        CaffeineState.Inactive false)).
Proof. split; [reflexivity | discriminate]. Qed.

(** C2, as the code has it: the pair is recorded before the system is
    called.  When the call is refused (it returns [NULL]) the requested state
    and the computed display flag stay recorded, the mode, the session state
    and the settings are as before, and the only thing the call of
    [UpdateExecutionState] has done outside is that one call: the icon and
    the tip are not updated. *)
Theorem UpdateExecutionState_refused
    (host : Host) (state : CaffeineState.t) (w : World) (flags : Z) :
  let w' := exec (UpdateExecutionState host state) w in
  In (CallSetThreadExecutionState flags 0) (since w w') ->
  recorded (app w') = desired (app w) state /\
  since w w' = [CallSetThreadExecutionState flags 0] /\
  flags = executionFlags state (desiredKeepDisplayOn (app w)) /\
  mCaffeineMode (app w') = mCaffeineMode (app w) /\
  mSessionState (app w') = mSessionState (app w) /\
  mSettings (app w') = mSettings (app w).
Proof.
  intros w' Hin.
  pose proof (UpdateExecutionState_frame host state w) as Hframe.
  destruct (UpdateExecutionState_cases host state w)
    as [[_ E]|[_ [Ea [[Hr E]|[Hr [icon [tip E]]]]]]]; fold w' in E.
  - rewrite E, since_same in Hin. contradiction.
  - fold w' in Ea.
    rewrite (since_app w w' [CallSetThreadExecutionState _ _]) in * by exact E.
    destruct Hin as [Hin|[]]. injection Hin as Hf _.
    rewrite Hr, Hf. rewrite Ea. repeat split; try reflexivity; apply Hframe.
  - rewrite (since_app w w' [CallUpdateTip tip; CallUpdateIcon icon;
                             CallSetThreadExecutionState _ _]) in Hin by exact E.
    destruct Hin as [Hin|[Hin|[Hin|[]]]]; try discriminate.
    injection Hin as _ Hr'. congruence.
Qed.

Lemma UpdateExecutionState_refused_witness :
  recorded (app (exec (UpdateExecutionState (specHost refusing) CaffeineState.Active)
              (worldOf CaffeineMode.Enabled SessionState.Unlocked CaffeineState.Inactive false)))
  = (CaffeineState.Active, true).
Proof.
  exact (proj1
    (UpdateExecutionState_refused (specHost refusing) CaffeineState.Active
       (worldOf CaffeineMode.Enabled SessionState.Unlocked CaffeineState.Inactive false)
       (executionFlags CaffeineState.Active true) (or_introl eq_refl))).
Defined.

(** ** Disabled mode *)

(** Right after [Init], in Disabled mode, a report of activity is honoured:
    the state becomes Active.  And a display flag recorded while Inactive (in
    Auto mode with [KeepDisplayOn]) is still recorded after the switch to
    Disabled mode, whose policy reports inactivity. *)
Lemma UpdateExecutionState_Disabled_not_forced :
  mCaffeineMode (app (reachable (specHost accepting) (startup FileAbsent) []))
    = CaffeineMode.Disabled /\
  recorded (app (exec (UpdateExecutionState (specHost accepting) CaffeineState.Active)
              (reachable (specHost accepting) (startup FileAbsent) [])))
    = (CaffeineState.Active, false) /\
  mCaffeineMode
    (app (reachable (specHost accepting) (startup (FileSettings displayOn))
            [SetMode CaffeineMode.Auto; CustomMessage (WM_APP + 1) 0;
             SetMode CaffeineMode.Disabled]))
    = CaffeineMode.Disabled /\
  recorded
    (app (reachable (specHost accepting) (startup (FileSettings displayOn))
            [SetMode CaffeineMode.Auto; CustomMessage (WM_APP + 1) 0;
             SetMode CaffeineMode.Disabled]))
    = (CaffeineState.Inactive, true).
Proof. repeat split. Qed.

(** C3, as the code has it: in Disabled mode [UpdateExecutionState] records
    the state it is asked for, so Inactive when Inactive is requested.  When
    that changes the recorded state, the recorded display flag becomes false
    and the system is called without [ES_DISPLAY_REQUIRED]; when the recorded
    state is the requested one already, nothing happens at all. *)
Theorem UpdateExecutionState_Disabled
    (host : Host) (state : CaffeineState.t) (w : World) :
  mCaffeineMode (app w) = CaffeineMode.Disabled ->
  let w' := exec (UpdateExecutionState host state) w in
  mCaffeineState (app w') = state /\
  (mCaffeineState (app w) <> state ->
     mKeepDisplayOn (app w') = false /\
     osCalls (since w w') = [executionFlags state false]) /\
  (mCaffeineState (app w) = state -> w' = w).
Proof.
  intros Hm w'.
  assert (Hn : noNeed (app w) state = CaffeineState.eqb (mCaffeineState (app w)) state).
  { unfold noNeed. now rewrite Hm. }
  assert (Hd : desiredKeepDisplayOn (app w) = false).
  { unfold desiredKeepDisplayOn, modeSettings. now rewrite Hm. }
  split; [apply UpdateExecutionState_state|]. split.
  - intros Hne.
    destruct (UpdateExecutionState_cases host state w) as [[H _]|[_ [Ea _]]].
    + rewrite Hn in H. apply CaffeineState_eqb_eq in H. contradiction.
    + fold w' in Ea. rewrite Ea, Hd. split; [reflexivity|].
      destruct (UpdateExecutionState_osCalls host state w) as [[H _]|[_ E]].
      * rewrite Hn in H. apply CaffeineState_eqb_eq in H. contradiction.
      * fold w' in E. now rewrite E, Hd.
  - intros He.
    destruct (UpdateExecutionState_cases host state w) as [[_ E]|[H _]]; [exact E|].
    rewrite Hn, He, CaffeineState_eqb_refl in H. discriminate.
Qed.

Lemma UpdateExecutionState_Disabled_witness :
  mCaffeineState
    (app (exec (UpdateExecutionState (specHost accepting) CaffeineState.Inactive)
            (worldOf CaffeineMode.Disabled SessionState.Unlocked CaffeineState.Active true)))
    = CaffeineState.Inactive /\
  mKeepDisplayOn
    (app (exec (UpdateExecutionState (specHost accepting) CaffeineState.Inactive)
            (worldOf CaffeineMode.Disabled SessionState.Unlocked CaffeineState.Active true)))
    = false.
Proof.
  split.
  - exact (proj1
      (UpdateExecutionState_Disabled (specHost accepting) CaffeineState.Inactive
         (worldOf CaffeineMode.Disabled SessionState.Unlocked CaffeineState.Active true)
         eq_refl)).
  - apply (UpdateExecutionState_Disabled (specHost accepting) CaffeineState.Inactive
         (worldOf CaffeineMode.Disabled SessionState.Unlocked CaffeineState.Active true)
         eq_refl).
    discriminate.
Defined.

(** ** The handlers, step by step *)

Lemma exec_bind {A B : Type} (c : M A) (k : A -> M B) (w : World) :
  exec (bind c k) w = exec (k (result c w)) (exec c w).
Proof. unfold exec, result, bind. now destruct (c w). Qed.

Lemma exec_ret {A : Type} (x : A) (w : World) : exec (ret x) w = w.
Proof. reflexivity. Qed.

Lemma many_trans (R : World -> World -> Prop) (w1 w2 w3 : World) :
  many R w1 w2 -> many R w2 w3 -> many R w1 w3.
Proof.
  intros H12 H23. induction H23 as [|w3 w4 _ IH Hstep]; [exact H12|].
  exact (many_step R w1 w3 w4 IH Hstep).
Qed.

Lemma many_one (R : World -> World -> Prop) (w w' : World) : R w w' -> many R w w'.
Proof. intros H. exact (many_step R w w w' (many_refl R w) H). Qed.

Lemma many_incl (R S : World -> World -> Prop) (w w' : World) :
  (forall a b, R a b -> S a b) -> many R w w' -> many S w w'.
Proof.
  intros HRS H. induction H as [|w1 w2 _ IH Hstep]; [apply many_refl|].
  exact (many_step S w w1 w2 IH (HRS _ _ Hstep)).
Qed.

Lemma UpdateIcon_quiet (w : World) : many quiet w (exec UpdateIcon w).
Proof. apply many_one. unfold exec, UpdateIcon, bind, this, emit. simpl. now constructor. Qed.

Lemma UpdateTip_quiet (w : World) : many quiet w (exec UpdateTip w).
Proof. apply many_one. unfold exec, UpdateTip, bind, this, emit. simpl. now constructor. Qed.

Lemma SaveSettings_quiet (w : World) : many quiet w (exec SaveSettings w).
Proof. apply many_one. unfold exec, SaveSettings, bind, this, emit. simpl. now constructor. Qed.

Lemma UpdateExecutionState_quiet (host : Host) (state : CaffeineState.t) (w : World) :
  many quiet w (exec (UpdateExecutionState host state) w).
Proof.
  unfold exec. rewrite UpdateExecutionState_eq. simpl.
  destruct (noNeed (app w) state); [apply many_refl|].
  unfold published.
  set (w1 := mkWorld _ (_ :: effects w)).
  assert (H1 : many quiet w w1) by (apply many_one; constructor).
  destruct (_ =? 0); [exact H1|].
  rewrite exec_bind.
  eapply many_trans; [exact H1|].
  eapply many_trans; [apply UpdateIcon_quiet | apply UpdateTip_quiet].
Qed.

Lemma RefreshExecutionState_quiet (host : Host) (w : World) :
  many quiet w (exec (RefreshExecutionState host) w).
Proof. unfold RefreshExecutionState. rewrite exec_bind. apply UpdateExecutionState_quiet. Qed.

Lemma OnCustomMessage_quiet (host : Host) (uMsg wParam : Z) (w : World) :
  many quiet w (exec (OnCustomMessage host uMsg wParam) w).
Proof.
  unfold OnCustomMessage.
  destruct (uMsg =? _); [|apply many_refl].
  destruct (negb _); apply UpdateExecutionState_quiet.
Qed.

Lemma report_quiet (host : Host) (decisions : list bool) (w : World) :
  many quiet w (exec (report host decisions) w).
Proof.
  revert w. induction decisions as [|active rest IH]; intros w; simpl.
  - apply many_refl.
  - rewrite exec_bind. eapply many_trans; [|apply IH].
    destruct active; unfold EnableCaffeine, DisableCaffeine;
      rewrite exec_bind, exec_ret; apply OnCustomMessage_quiet.
Qed.

Lemma OnSystemMessage_quiet (host : Host) (uMsg wParam : Z) (w : World) :
  many quiet w (exec (OnSystemMessage host uMsg wParam) w).
Proof.
  unfold OnSystemMessage.
  destruct (uMsg =? _); [|apply many_refl].
  destruct (wParam =? WTS_SESSION_LOCK); [|destruct (wParam =? WTS_SESSION_UNLOCK)].
  3: apply many_refl.
  all: rewrite !exec_bind, exec_ret;
    (eapply many_trans; [|apply RefreshExecutionState_quiet]);
    apply many_one; unfold exec, assign; simpl; constructor.
Qed.

Lemma ShowSettingsDialog_quiet (host : Host) (dialog : option Settings) (w : World) :
  many quiet w (exec (ShowSettingsDialog host dialog) w).
Proof.
  destruct dialog as [s|]; simpl; [|apply many_refl].
  rewrite !exec_bind, exec_ret.
  eapply many_trans; [|apply SaveSettings_quiet].
  eapply many_trans; [|apply RefreshExecutionState_quiet].
  apply many_one. unfold exec, assign. simpl. constructor.
Qed.

(** Quiet steps leave the mode and the running policies as they are; what
    they add to the log is no call of a policy. *)
Lemma quiet_frame (w w' : World) :
  many quiet w w' ->
  mCaffeineMode (app w') = mCaffeineMode (app w) /\
  exists new, effects w' = new ++ effects w /\ existsb isPolicyCall new = false.
Proof.
  intros H. induction H as [|w1 w2 _ [IHm [new [IHe IHf]]] Hstep].
  - split; [reflexivity|]. now exists [].
  - destruct Hstep; simpl; (split; [exact IHm|]).
    + exists (CallSetThreadExecutionState (executionFlags state k) r :: new).
      rewrite IHe. split; [reflexivity | exact IHf].
    + exists (e :: new). rewrite IHe. simpl. rewrite H. split; [reflexivity | exact IHf].
    + exists new. split; assumption.
    + exists new. split; assumption.
Qed.

Lemma running_quiet_app (new log : list Effect) :
  existsb isPolicyCall new = false -> running (new ++ log) = running log.
Proof.
  induction new as [|e new IH]; simpl; [reflexivity|].
  intros H. apply orb_false_iff in H as [He Hnew].
  destruct e; try discriminate; now apply IH.
Qed.

Lemma osCalls_app (l1 l2 : list Effect) : osCalls (l1 ++ l2) = osCalls l1 ++ osCalls l2.
Proof.
  induction l1 as [|e l1 IH]; simpl; [reflexivity|].
  destruct e; simpl; now rewrite ?IH.
Qed.

Lemma earlier_refl (log : list Effect) : earlier log log.
Proof. now exists []. Qed.

Lemma earlier_cons (past log : list Effect) (e : Effect) :
  earlier past (e :: log) <-> past = e :: log \/ earlier past log.
Proof.
  split.
  - intros [[|e' later] H]; simpl in H.
    + left. now symmetry.
    + right. injection H as _ H. now exists later.
  - intros [->|[later ->]].
    + apply earlier_refl.
    + now exists (e :: later).
Qed.

Lemma exec_emit (e : Effect) (w : World) :
  exec (emit e) w = mkWorld (app w) (e :: effects w).
Proof. reflexivity. Qed.

Lemma exec_assign (f : CaffeineApp -> CaffeineApp) (w : World) :
  exec (assign f) w = mkWorld (f (app w)) (effects w).
Proof. reflexivity. Qed.

(** [SetCaffeineMode] in steps: the stop of the policy of the mode left,
    what that policy reports, the new mode and the start of its policy, what
    this one reports, the icon and the tip. *)
Lemma SetCaffeineMode_steps (host : Host) (mode : CaffeineMode.t) (w : World) :
  exists w1,
    many quiet (mkWorld (app w) (CallModeStop (mCaffeineMode (app w)) :: effects w)) w1 /\
    many quiet (mkWorld (set_mCaffeineMode mode (app w1)) (CallModeStart mode :: effects w1))
               (exec (SetCaffeineMode host mode) w).
Proof.
  unfold SetCaffeineMode, StopMode, StartMode.
  rewrite !exec_bind.
  change (exec this w) with w. change (result this w) with (app w).
  rewrite exec_emit.
  set (w0 := mkWorld (app w) _).
  set (w1 := exec (report host _) w0).
  exists w1. split; [apply report_quiet|].
  rewrite exec_assign.
  set (w2 := mkWorld _ (effects w1)).
  change (exec this w2) with w2. change (result this w2) with (app w2).
  rewrite exec_emit. simpl.
  eapply many_trans; [|apply UpdateTip_quiet].
  eapply many_trans; [|apply UpdateIcon_quiet].
  apply report_quiet.
Qed.

Lemma SetCaffeineMode_mode (host : Host) (mode : CaffeineMode.t) (w : World) :
  mCaffeineMode (app (exec (SetCaffeineMode host mode) w)) = mode.
Proof.
  destruct (SetCaffeineMode_steps host mode w) as [w1 [_ H]].
  apply quiet_frame in H as [H _]. exact H.
Qed.

(** ** The invariants are kept by every step *)

Lemma wellFormed_executionFlags (state : CaffeineState.t) (k : bool) :
  wellFormed (executionFlags state k).
Proof. destruct state, k; split; (reflexivity || discriminate || auto). Qed.

Lemma atom_osCalls (w w' : World) :
  atom w w' ->
  osCalls (effects w') = osCalls (effects w) \/
  exists state k,
    osCalls (effects w') = executionFlags state k :: osCalls (effects w) /\
    mCaffeineState (app w') = state /\ mKeepDisplayOn (app w') = k.
Proof.
  intros [w1 w2 Hq| |]; [destruct Hq|..]; simpl; auto.
  - right. now exists state, k.
  - left. destruct e; simpl in *; congruence.
Qed.

Lemma atom_recorded (w w' : World) :
  atom w w' ->
  osCalls (effects w') = osCalls (effects w) ->
  recorded (app w') = recorded (app w).
Proof.
  intros [w1 w2 Hq| |]; [destruct Hq|..]; simpl; auto.
  intros H. exfalso. apply (f_equal (@length Z)) in H. simpl in H. lia.
Qed.

Lemma atom_wellFormed (w w' : World) :
  atom w w' -> Forall wellFormed (osCalls (effects w)) ->
  Forall wellFormed (osCalls (effects w')).
Proof.
  intros H Hw. destruct (atom_osCalls w w' H) as [->|[state [k [-> _]]]]; [exact Hw|].
  constructor; [apply wellFormed_executionFlags | exact Hw].
Qed.

Lemma atom_inSync (w w' : World) : atom w w' -> inSync w -> inSync w'.
Proof.
  intros H Hs. unfold inSync in *.
  destruct (atom_osCalls w w' H) as [E|[state [k [-> [<- <-]]]]]; [|reflexivity].
  rewrite E. apply (atom_recorded w w' H) in E. unfold recorded in E.
  injection E as -> ->. exact Hs.
Qed.

Lemma stopOne_bracket (mode : CaffeineMode.t) (l : list CaffeineMode.t) :
  l = [] \/ l = [mode] -> stopOne mode l = [].
Proof. intros [->| ->]; simpl; [reflexivity|]. now destruct mode. Qed.

Lemma atom_bracketed (w w' : World) : atom w w' -> bracketed w -> bracketed w'.
Proof.
  intros H [Hnow Hpast].
  assert (Hlen : (length (running (effects w)) <= 1)%nat).
  { destruct Hnow as [-> | ->]; simpl; lia. }
  destruct H as [w1 w2 Hq| |]; [destruct Hq|..]; unfold bracketed; simpl.
  - split; [exact Hnow|]. intros past Hp. apply earlier_cons in Hp as [->|Hp]; auto.
  - split.
    + destruct e; try discriminate; exact Hnow.
    + intros past Hp. apply earlier_cons in Hp as [->|Hp]; auto.
      destruct e; try discriminate; exact Hlen.
  - split; [exact Hnow | exact Hpast].
  - split; [exact Hnow | exact Hpast].
  - rewrite (stopOne_bracket _ _ Hnow). split; [now left|].
    intros past Hp. apply earlier_cons in Hp as [->|Hp]; auto.
    simpl. rewrite (stopOne_bracket _ _ Hnow). simpl. lia.
  - rewrite H. split; [now right|].
    intros past Hp. apply earlier_cons in Hp as [->|Hp]; auto.
    simpl. rewrite H. simpl. lia.
Qed.

Lemma many_invariant (P : World -> Prop) (w w' : World) :
  (forall a b, atom a b -> P a -> P b) -> many atom w w' -> P w -> P w'.
Proof. intros Hstep H Hw. induction H as [|w1 w2 _ IH Ha]; eauto. Qed.

Lemma quiet_many_atom (w w' : World) : many quiet w w' -> many atom w w'.
Proof. apply many_incl. intros a b. apply atom_quiet. Qed.

Lemma quiet_running (w w' : World) :
  many quiet w w' -> running (effects w') = running (effects w).
Proof.
  intros H. apply quiet_frame in H as [_ [new [-> Hnew]]].
  now apply running_quiet_app.
Qed.

(** From a bracketed world [SetCaffeineMode] is a sequence of steps. *)
Lemma SetCaffeineMode_atoms (host : Host) (mode : CaffeineMode.t) (w : World) :
  bracketed w -> many atom w (exec (SetCaffeineMode host mode) w).
Proof.
  intros [Hnow _].
  destruct (SetCaffeineMode_steps host mode w) as [w1 [H1 H2]].
  eapply many_trans; [|apply quiet_many_atom; exact H2].
  eapply many_step.
  - eapply many_trans; [apply many_one, atom_stop | apply quiet_many_atom; exact H1].
  - apply atom_switch.
    rewrite (quiet_running _ _ H1). simpl. now apply stopOne_bracket.
Qed.

Lemma bracketed_many (w w' : World) : many atom w w' -> bracketed w -> bracketed w'.
Proof. apply many_invariant. exact atom_bracketed. Qed.

Lemma handle_atoms (host : Host) (s : Stimulus) (w : World) :
  bracketed w -> many atom w (exec (handle host s) w).
Proof.
  intros Hb. destruct s as [mode| |dialog|uMsg wParam|uMsg wParam]; simpl.
  - now apply SetCaffeineMode_atoms.
  - unfold ToggleCaffeineMode. rewrite exec_bind. now apply SetCaffeineMode_atoms.
  - rewrite exec_bind, exec_ret. apply quiet_many_atom, ShowSettingsDialog_quiet.
  - apply quiet_many_atom, OnCustomMessage_quiet.
  - rewrite exec_bind, exec_ret. apply quiet_many_atom, OnSystemMessage_quiet.
Qed.

Lemma run_atoms (host : Host) (stimuli : list Stimulus) (w : World) :
  bracketed w -> many atom w (run host stimuli w).
Proof.
  revert w. induction stimuli as [|s rest IH]; intros w Hb; simpl.
  - apply many_refl.
  - pose proof (handle_atoms host s w Hb) as Hs.
    eapply many_trans; [exact Hs|]. apply IH. exact (bracketed_many _ _ Hs Hb).
Qed.

Lemma LoadSettings_quiet (host : Host) (file : SettingsFile) (w : World) :
  many quiet w (exec (LoadSettings host file) w).
Proof.
  destruct file; simpl; try apply many_refl;
    rewrite exec_bind, exec_ret, exec_assign; apply many_one; constructor.
Qed.

Lemma bracketed_new (host : Host) : bracketed (CaffeineApp_new host).
Proof.
  split; [now left|]. intros past [later H]. simpl in H.
  symmetry in H. apply app_eq_nil in H as [_ ->]. simpl. lia.
Qed.

Lemma Init_atoms (host : Host) (s : Startup) (w : World) :
  bracketed w -> many atom w (exec (Init host s) w).
Proof.
  intros Hb. unfold Init. rewrite exec_bind.
  set (load := match settingsFile s with FileAbsent => _ | _ => _ end).
  assert (Hload : many quiet w (exec load w)).
  { subst load. destruct (settingsFile s); try apply LoadSettings_quiet.
    rewrite exec_bind, exec_ret. apply SaveSettings_quiet. }
  apply quiet_many_atom in Hload.
  eapply many_trans; [exact Hload|].
  pose proof (bracketed_many _ _ Hload Hb) as Hb1.
  destruct (negb (result load w)); [apply many_refl|].
  rewrite exec_bind, exec_assign.
  set (w1 := mkWorld _ (effects (exec load w))).
  assert (H1 : many atom (exec load w) w1).
  { apply many_one, atom_quiet. constructor. }
  eapply many_trans; [exact H1|].
  pose proof (bracketed_many _ _ H1 Hb1) as Hb2.
  destruct (negb (NotifyIcon_Init s)); [apply many_refl|].
  rewrite !exec_bind, exec_ret.
  eapply many_trans; [apply SetCaffeineMode_atoms; exact Hb2|].
  apply many_one, atom_quiet. rewrite exec_emit. now constructor.
Qed.

(** Every world the program can be in is reached from the constructed one
    by steps. *)
Lemma reachable_atoms (host : Host) (s : Startup) (stimuli : list Stimulus) :
  many atom (CaffeineApp_new host) (reachable host s stimuli).
Proof.
  unfold reachable.
  pose proof (Init_atoms host s _ (bracketed_new host)) as Hi.
  eapply many_trans; [exact Hi|]. apply run_atoms.
  exact (bracketed_many _ _ Hi (bracketed_new host)).
Qed.

(** ** The short-circuit *)

Lemma noNeed_desired (a : CaffeineApp) (state : CaffeineState.t) :
  desired a state = recorded a -> noNeed a state = true.
Proof.
  unfold desired, recorded, noNeed. intros H. injection H as Hs Hk.
  rewrite <- Hs, <- Hk, CaffeineState_eqb_refl, eqb_reflx. now destruct (mCaffeineMode a).
Qed.

Lemma desiredKeepDisplayOn_ext (a b : CaffeineApp) :
  mCaffeineMode a = mCaffeineMode b ->
  mSessionState a = mSessionState b ->
  mSettings a = mSettings b ->
  desiredKeepDisplayOn a = desiredKeepDisplayOn b.
Proof.
  unfold desiredKeepDisplayOn, modeSettings. now intros -> -> ->.
Qed.

Lemma SetCaffeineMode_unfold (host : Host) (mode : CaffeineMode.t) (w : World) :
  exec (SetCaffeineMode host mode) w =
  let w1 := exec (report host (mode_Stop host (mCaffeineMode (app w))))
              (mkWorld (app w) (CallModeStop (mCaffeineMode (app w)) :: effects w)) in
  let w2 := exec (report host (mode_Start host mode))
              (mkWorld (set_mCaffeineMode mode (app w1)) (CallModeStart mode :: effects w1)) in
  exec UpdateTip (exec UpdateIcon w2).
Proof.
  unfold SetCaffeineMode, StopMode, StartMode.
  rewrite !exec_bind. reflexivity.
Qed.

Lemma report_true (host : Host) (w : World) :
  exec (report host [true]) w = exec (UpdateExecutionState host CaffeineState.Active) w.
Proof.
  simpl. unfold EnableCaffeine, OnCustomMessage.
  rewrite !exec_bind, !exec_ret, Z.eqb_refl. reflexivity.
Qed.

Lemma UpdateExecutionState_effects (host : Host) (state : CaffeineState.t) (w : World) :
  exists new,
    effects (exec (UpdateExecutionState host state) w) = new ++ effects w /\
    (length (osCalls new) <= 1)%nat.
Proof.
  destruct (UpdateExecutionState_cases host state w)
    as [[_ E]|[_ [_ [[_ E]|[_ [icon [tip E]]]]]]]; rewrite E.
  - exists []. simpl. split; [reflexivity | lia].
  - exists [CallSetThreadExecutionState
              (executionFlags state (desiredKeepDisplayOn (app w)))
              (os_SetThreadExecutionState host (effects w)
                 (executionFlags state (desiredKeepDisplayOn (app w))))].
    simpl. split; [reflexivity | lia].
  - exists [CallUpdateTip tip; CallUpdateIcon icon;
            CallSetThreadExecutionState
              (executionFlags state (desiredKeepDisplayOn (app w)))
              (os_SetThreadExecutionState host (effects w)
                 (executionFlags state (desiredKeepDisplayOn (app w))))].
    simpl. split; [reflexivity | lia].
Qed.

(** Right after [Init], in Disabled mode: the pair the spec desires for a
    request of activity, (Inactive, false), is the pair recorded, and still
    the system is called, with [ES_SYSTEM_REQUIRED], and Active is recorded.
    The pair the code wants recorded differs from the spec's here. *)
Lemma UpdateExecutionState_spec_desired_no_short_circuit :
  mCaffeineMode (app (reachable (specHost accepting) (startup FileAbsent) []))
    = CaffeineMode.Disabled /\
  spec_desired (app (reachable (specHost accepting) (startup FileAbsent) []))
               CaffeineState.Active
    = recorded (app (reachable (specHost accepting) (startup FileAbsent) [])) /\
  osCalls
    (since (reachable (specHost accepting) (startup FileAbsent) [])
       (exec (UpdateExecutionState (specHost accepting) CaffeineState.Active)
          (reachable (specHost accepting) (startup FileAbsent) [])))
    = [Z.lor ES_CONTINUOUS ES_SYSTEM_REQUIRED] /\
  recorded
    (app (exec (UpdateExecutionState (specHost accepting) CaffeineState.Active)
            (reachable (specHost accepting) (startup FileAbsent) [])))
    <> recorded (app (reachable (specHost accepting) (startup FileAbsent) [])) /\
  desired (app (reachable (specHost accepting) (startup FileAbsent) []))
          CaffeineState.Active
    <> spec_desired (app (reachable (specHost accepting) (startup FileAbsent) []))
                    CaffeineState.Active.
Proof. repeat split; discriminate. Qed.

(** C4, as the code has it: the pair [UpdateExecutionState] wants recorded
    is the requested state, taken as it is in every mode, with the display
    flag computed from the settings of the mode and the session state (false
    in Disabled mode).  When this pair is the pair
    that is recorded, the call returns with the world as it was: no call of
    the system, no other effect, no field changed.  In particular, with an
    Enabled policy that reports activity once when started and nothing when
    stopped, the second of two [SetCaffeineMode(Enabled)] in a row stops and
    starts the policy again and updates icon and tip, and does nothing else:
    it makes no call of the system and keeps the recorded pair; and when the
    policy of the mode left by the first reports nothing from [Stop], the two
    together call the system at most once. *)
Theorem UpdateExecutionState_short_circuit
    (host : Host) (state : CaffeineState.t) (w : World) :
  (desired (app w) state = recorded (app w) ->
     UpdateExecutionState host state w = (tt, w)) /\
  (mode_Start host CaffeineMode.Enabled = [true] ->
   mode_Stop host CaffeineMode.Enabled = [] ->
     let w1 := exec (SetCaffeineMode host CaffeineMode.Enabled) w in
     let w2 := exec (SetCaffeineMode host CaffeineMode.Enabled) w1 in
     since w1 w2 = [CallUpdateTip IDS_CAFFEINE_ENABLED; CallUpdateIcon CaffeineEnabled;
                    CallModeStart CaffeineMode.Enabled; CallModeStop CaffeineMode.Enabled] /\
     app w2 = app w1 /\
     (mode_Stop host (mCaffeineMode (app w)) = [] ->
        (length (osCalls (since w w2)) <= 1)%nat)).
Proof.
  split.
  - intros H. rewrite UpdateExecutionState_eq. now rewrite (noNeed_desired _ _ H).
  - intros Hstart Hstop w1 w2.
    (* the first call *)
    assert (E1 : w1 = exec (SetCaffeineMode host CaffeineMode.Enabled) w) by reflexivity.
    rewrite SetCaffeineMode_unfold, Hstart in E1. cbv zeta in E1.
    set (wa := exec (report host (mode_Stop host (mCaffeineMode (app w)))) _) in E1.
    set (ws := mkWorld (set_mCaffeineMode CaffeineMode.Enabled (app wa)) _) in E1.
    rewrite report_true in E1.
    set (wu := exec (UpdateExecutionState host CaffeineState.Active) ws) in E1.
    assert (Hmode : mCaffeineMode (app ws) <> CaffeineMode.Disabled) by discriminate.
    pose proof (UpdateExecutionState_state host CaffeineState.Active ws) as Hst.
    pose proof (UpdateExecutionState_display host CaffeineState.Active ws Hmode) as Hk.
    destruct (UpdateExecutionState_frame host CaffeineState.Active ws) as [Hm [Hss Hse]].
    fold wu in Hst, Hk, Hm, Hss, Hse.
    assert (Ea1 : app w1 = app wu) by (rewrite E1; reflexivity).
    assert (Hm1 : mCaffeineMode (app w1) = CaffeineMode.Enabled)
      by (rewrite Ea1, Hm; reflexivity).
    (* the second call *)
    assert (E2 : w2 = exec (SetCaffeineMode host CaffeineMode.Enabled) w1) by reflexivity.
    rewrite SetCaffeineMode_unfold, Hstart, Hm1, Hstop in E2. cbv zeta in E2.
    rewrite report_true in E2. simpl (exec (report host []) _) in E2.
    set (ws' := mkWorld (set_mCaffeineMode CaffeineMode.Enabled _) _) in E2.
    assert (Hnn : noNeed (app ws') CaffeineState.Active = true).
    { apply noNeed_desired. unfold desired, recorded. subst ws'. simpl.
      rewrite Ea1, Hst, Hk. f_equal.
      apply desiredKeepDisplayOn_ext; [reflexivity | exact Hss | exact Hse]. }
    unfold exec at 3 in E2. rewrite UpdateExecutionState_eq, Hnn in E2. simpl in E2.
    assert (Eeff : effects w2 =
      [CallUpdateTip IDS_CAFFEINE_ENABLED; CallUpdateIcon CaffeineEnabled;
       CallModeStart CaffeineMode.Enabled; CallModeStop CaffeineMode.Enabled]
      ++ effects w1).
    { rewrite E2. unfold exec, UpdateTip, UpdateIcon, bind, this, emit. simpl.
      reflexivity. }
    assert (Eapp : app w2 = app w1).
    { rewrite E2. unfold exec, UpdateTip, UpdateIcon, bind, this, emit. simpl.
      revert Hm1. destruct (app w1). simpl. now intros ->. }
    split; [now apply since_app|]. split; [exact Eapp|].
    intros Hstop0.
    destruct (UpdateExecutionState_effects host CaffeineState.Active ws) as [new [En Hlen]].
    fold wu in En.
    assert (Ewa : effects wa = CallModeStop (mCaffeineMode (app w)) :: effects w).
    { subst wa. rewrite Hstop0. reflexivity. }
    assert (Eeff1 : effects w1 =
      (CallUpdateTip IDS_CAFFEINE_ENABLED :: CallUpdateIcon CaffeineEnabled :: new)
      ++ CallModeStart CaffeineMode.Enabled :: CallModeStop (mCaffeineMode (app w))
      :: effects w).
    { rewrite E1. unfold exec at 1 2, UpdateTip, UpdateIcon, bind, this, emit. simpl.
      rewrite Hm, En. simpl. now rewrite Ewa. }
    rewrite (since_app w w2
      ([CallUpdateTip IDS_CAFFEINE_ENABLED; CallUpdateIcon CaffeineEnabled;
        CallModeStart CaffeineMode.Enabled; CallModeStop CaffeineMode.Enabled]
       ++ (CallUpdateTip IDS_CAFFEINE_ENABLED :: CallUpdateIcon CaffeineEnabled :: new)
       ++ [CallModeStart CaffeineMode.Enabled; CallModeStop (mCaffeineMode (app w))])).
    + rewrite !osCalls_app. simpl. rewrite app_nil_r. exact Hlen.
    + rewrite Eeff, Eeff1. simpl. rewrite <- !app_assoc. reflexivity.
Qed.

Lemma UpdateExecutionState_short_circuit_witness :
  UpdateExecutionState (specHost accepting) CaffeineState.Active
    (worldOf CaffeineMode.Enabled SessionState.Unlocked CaffeineState.Active true)
  = (tt, worldOf CaffeineMode.Enabled SessionState.Unlocked CaffeineState.Active true) /\
  (length (osCalls
     (since (CaffeineApp_new (specHost accepting))
        (exec (SetCaffeineMode (specHost accepting) CaffeineMode.Enabled)
           (exec (SetCaffeineMode (specHost accepting) CaffeineMode.Enabled)
              (CaffeineApp_new (specHost accepting)))))) <= 1)%nat.
Proof.
  split.
  - exact (proj1
      (UpdateExecutionState_short_circuit (specHost accepting) CaffeineState.Active
         (worldOf CaffeineMode.Enabled SessionState.Unlocked CaffeineState.Active true))
      eq_refl).
  - exact (proj2 (proj2 (proj2
      (UpdateExecutionState_short_circuit (specHost accepting) CaffeineState.Active
         (CaffeineApp_new (specHost accepting))) eq_refl eq_refl)) eq_refl).
Defined.

(** ** The display flag and the state *)

Lemma inSync_new (host : Host) : inSync (CaffeineApp_new host).
Proof. exact I. Qed.

Lemma reachable_inSync (host : Host) (s : Startup) (stimuli : list Stimulus) :
  inSync (reachable host s stimuli).
Proof.
  apply (many_invariant inSync (CaffeineApp_new host)).
  - exact atom_inSync.
  - apply reachable_atoms.
  - apply inSync_new.
Qed.

(** Display-on is recorded while the state is Inactive: in Auto mode with
    [KeepDisplayOn], when the policy reports inactivity; and in Timer mode
    with [KeepDisplayOn], reached by three clicks, when the countdown ends
    and the policy reports inactivity. *)
Lemma display_recorded_while_Inactive :
  recorded (app (reachable (specHost accepting) (startup (FileSettings displayOn))
                   [SetMode CaffeineMode.Auto; CustomMessage (WM_APP + 1) 0]))
    = (CaffeineState.Inactive, true) /\
  recorded (app (reachable (specHost accepting) (startup (FileSettings displayOn))
                   [Toggle; Toggle; Toggle; CustomMessage (WM_APP + 1) 0]))
    = (CaffeineState.Inactive, true).
Proof. split; reflexivity. Qed.

(** C5, as the code has it: in every world the program can be in, the
    latest call of [SetThreadExecutionState] carries the flags of the
    recorded pair, so the display-on asked of the system
    ([ES_DISPLAY_REQUIRED] in that call) is there only if the recorded state
    is Active (and the recorded display flag is true). *)
Theorem reachable_display_required
    (host : Host) (s : Startup) (stimuli : list Stimulus) (flags : Z) :
  let w := reachable host s stimuli in
  hd_error (osCalls (effects w)) = Some flags ->
  flags = executionFlags (mCaffeineState (app w)) (mKeepDisplayOn (app w)) /\
  (hasFlag flags ES_DISPLAY_REQUIRED = true ->
     mCaffeineState (app w) = CaffeineState.Active /\ mKeepDisplayOn (app w) = true).
Proof.
  intros w Hhd.
  pose proof (reachable_inSync host s stimuli) as Hs. fold w in Hs.
  unfold inSync in Hs. destruct (osCalls (effects w)) as [|f rest]; [discriminate|].
  injection Hhd as ->. split; [exact Hs|].
  rewrite Hs.
  destruct (mCaffeineState (app w)), (mKeepDisplayOn (app w)); simpl; intros H;
    (discriminate || now split).
Qed.

Lemma reachable_display_required_witness :
  mCaffeineState
    (app (reachable (specHost accepting) (startup (FileSettings displayOn))
            [SetMode CaffeineMode.Auto; CustomMessage (WM_APP + 1) 1]))
    = CaffeineState.Active /\
  mKeepDisplayOn
    (app (reachable (specHost accepting) (startup (FileSettings displayOn))
            [SetMode CaffeineMode.Auto; CustomMessage (WM_APP + 1) 1]))
    = true.
Proof.
  exact (proj2
    (reachable_display_required (specHost accepting) (startup (FileSettings displayOn))
       [SetMode CaffeineMode.Auto; CustomMessage (WM_APP + 1) 1]
       (executionFlags CaffeineState.Active true) eq_refl) eq_refl).
Defined.

(** ** Session changes *)

Lemma RefreshExecutionState_exec (host : Host) (w : World) :
  exec (RefreshExecutionState host) w
  = exec (UpdateExecutionState host (mCaffeineState (app w))) w.
Proof. unfold RefreshExecutionState. now rewrite exec_bind. Qed.



(** ** The cycle of modes *)

(** C7: [ToggleCaffeineMode] is [SetCaffeineMode] of the mode that follows
    the active one in the cycle Disabled, Enabled, Auto, Timer, Disabled, and
    that mode is active afterwards.  So four toggles from Disabled pass
    through Enabled, Auto, Timer and Disabled, in this order, once each. *)
Theorem ToggleCaffeineMode_cycle (host : Host) (w : World) :
  map nextMode [CaffeineMode.Disabled; CaffeineMode.Enabled;
                CaffeineMode.Auto; CaffeineMode.Timer]
    = [CaffeineMode.Enabled; CaffeineMode.Auto;
       CaffeineMode.Timer; CaffeineMode.Disabled] /\
  ToggleCaffeineMode host w = SetCaffeineMode host (nextMode (mCaffeineMode (app w))) w /\
  mCaffeineMode (app (exec (ToggleCaffeineMode host) w)) = nextMode (mCaffeineMode (app w)) /\
  (mCaffeineMode (app w) = CaffeineMode.Disabled ->
     modesVisited host 4 w
     = [CaffeineMode.Enabled; CaffeineMode.Auto;
        CaffeineMode.Timer; CaffeineMode.Disabled]).
Proof.
  assert (Hmode : forall v,
    mCaffeineMode (app (exec (ToggleCaffeineMode host) v)) = nextMode (mCaffeineMode (app v))).
  { intros v. unfold ToggleCaffeineMode. rewrite exec_bind. apply SetCaffeineMode_mode. }
  split; [reflexivity|]. split; [reflexivity|]. split; [apply Hmode|].
  intros H0. simpl. rewrite !Hmode, H0. reflexivity.
Qed.

Lemma ToggleCaffeineMode_cycle_witness :
  modesVisited (specHost accepting) 4 (CaffeineApp_new (specHost accepting))
  = [CaffeineMode.Enabled; CaffeineMode.Auto; CaffeineMode.Timer; CaffeineMode.Disabled].
Proof.
  exact (proj2 (proj2 (proj2
    (ToggleCaffeineMode_cycle (specHost accepting) (CaffeineApp_new (specHost accepting)))))
    eq_refl).
Defined.

(** ** One policy at a time *)

Lemma reachable_bracketed (host : Host) (s : Startup) (stimuli : list Stimulus) :
  bracketed (reachable host s stimuli).
Proof.
  apply (bracketed_many (CaffeineApp_new host)).
  - apply reachable_atoms.
  - apply bracketed_new.
Qed.

Lemma SetCaffeineMode_effects (host : Host) (mode : CaffeineMode.t) (w : World) :
  exists before after,
    effects (exec (SetCaffeineMode host mode) w)
    = (after ++ CallModeStart mode :: before ++ [CallModeStop (mCaffeineMode (app w))])
      ++ effects w /\
    existsb isPolicyCall before = false /\
    existsb isPolicyCall after = false.
Proof.
  destruct (SetCaffeineMode_steps host mode w) as [w1 [H1 H2]].
  apply quiet_frame in H1 as [_ [before [E1 Hb]]].
  apply quiet_frame in H2 as [_ [after [E2 Ha]]].
  simpl in E1, E2. exists before, after. repeat split; try assumption.
  rewrite E2, E1, <- !app_assoc. simpl. now rewrite <- app_assoc.
Qed.

(** C8: in every world the program can be in, and at every earlier moment
    of its log, at most one policy is started and not stopped, and it is the
    policy of the active mode.  [SetCaffeineMode], whatever the mode it is
    given (the active one too), first stops the policy of the active mode,
    then, after what that policy reports, assigns the mode and starts its
    policy; no other policy call is made, and afterwards exactly the policy
    of the new mode runs. *)
Theorem SetCaffeineMode_one_policy
    (host : Host) (s : Startup) (stimuli : list Stimulus) (mode : CaffeineMode.t) :
  let w := reachable host s stimuli in
  let w' := exec (SetCaffeineMode host mode) w in
  (forall past, earlier past (effects w) -> (length (running past) <= 1)%nat) /\
  (running (effects w) = [] \/ running (effects w) = [mCaffeineMode (app w)]) /\
  mCaffeineMode (app w') = mode /\
  running (effects w') = [mode] /\
  exists before after,
    since w w'
    = after ++ CallModeStart mode :: before ++ [CallModeStop (mCaffeineMode (app w))] /\
    existsb isPolicyCall before = false /\
    existsb isPolicyCall after = false.
Proof.
  intros w w'.
  destruct (reachable_bracketed host s stimuli) as [Hnow Hpast]. fold w in Hnow, Hpast.
  split; [exact Hpast|]. split; [exact Hnow|].
  split; [apply SetCaffeineMode_mode|].
  destruct (SetCaffeineMode_effects host mode w) as [before [after [E [Hb Ha]]]].
  fold w' in E. split.
  - rewrite E, <- app_assoc. rewrite (running_quiet_app after) by exact Ha.
    simpl. rewrite <- app_assoc. rewrite (running_quiet_app before) by exact Hb.
    simpl. now rewrite (stopOne_bracket _ _ Hnow).
  - exists before, after. split; [|split; assumption]. now apply since_app.
Qed.

Lemma SetCaffeineMode_one_policy_witness :
  (length (running [CallModeStart CaffeineMode.Enabled;
                    CallModeStop CaffeineMode.Disabled; CallUpdateAppIcon;
                    CallUpdateTip IDS_CAFFEINE_DISABLED;
                    CallUpdateIcon CaffeineDisabled;
                    CallModeStart CaffeineMode.Disabled;
                    CallModeStop CaffeineMode.Disabled]) <= 1)%nat.
Proof.
  apply (proj1 (SetCaffeineMode_one_policy (specHost accepting)
                  (startup (FileSettings allOff))
                  [SetMode CaffeineMode.Enabled] CaffeineMode.Enabled)).
  exists [CallUpdateTip IDS_CAFFEINE_ENABLED; CallUpdateIcon CaffeineEnabled;
          CallUpdateTip IDS_CAFFEINE_ENABLED; CallUpdateIcon CaffeineEnabled;
          CallSetThreadExecutionState (executionFlags CaffeineState.Active false)
            ES_CONTINUOUS].
  reflexivity.
Defined.

(** ** The flags of every call *)

Lemma reachable_wellFormed (host : Host) (s : Startup) (stimuli : list Stimulus) :
  Forall wellFormed (osCalls (effects (reachable host s stimuli))).
Proof.
  apply (many_invariant (fun w => Forall wellFormed (osCalls (effects w)))
           (CaffeineApp_new host)).
  - exact atom_wellFormed.
  - apply reachable_atoms.
  - constructor.
Qed.

(** C10: every call of [SetThreadExecutionState] in the log of a world the
    program can be in carries [ES_CONTINUOUS], and carries
    [ES_DISPLAY_REQUIRED] only together with [ES_SYSTEM_REQUIRED].  A call
    made by [UpdateExecutionState] carries [ES_SYSTEM_REQUIRED] exactly when
    the state recorded by it is Active, and [ES_DISPLAY_REQUIRED] exactly when
    moreover the display flag computed in this call is true; the display flag
    recorded before the call plays no part. *)
Theorem SetThreadExecutionState_flags
    (host : Host) (s : Startup) (stimuli : list Stimulus)
    (state : CaffeineState.t) (w : World) (flags : Z) :
  (In flags (osCalls (effects (reachable host s stimuli))) ->
     hasFlag flags ES_CONTINUOUS = true /\
     (hasFlag flags ES_DISPLAY_REQUIRED = true ->
        hasFlag flags ES_SYSTEM_REQUIRED = true)) /\
  (let w' := exec (UpdateExecutionState host state) w in
   In flags (osCalls (since w w')) ->
     hasFlag flags ES_CONTINUOUS = true /\
     (hasFlag flags ES_SYSTEM_REQUIRED = true <->
        mCaffeineState (app w') = CaffeineState.Active) /\
     (hasFlag flags ES_DISPLAY_REQUIRED = true <->
        mCaffeineState (app w') = CaffeineState.Active /\
        desiredKeepDisplayOn (app w) = true)).
Proof.
  split.
  - intros Hin.
    pose proof (reachable_wellFormed host s stimuli) as Hall.
    rewrite Forall_forall in Hall. exact (Hall flags Hin).
  - intros w' Hin.
    assert (Hst : mCaffeineState (app w') = state)
      by apply UpdateExecutionState_state.
    destruct (UpdateExecutionState_osCalls host state w) as [[_ E]|[_ E]];
      fold w' in E; rewrite E in Hin; simpl in Hin; [contradiction|].
    destruct Hin as [<-|[]]. rewrite Hst.
    destruct (executionFlags_bits state (desiredKeepDisplayOn (app w)))
      as [-> [-> ->]].
    split; [reflexivity|]. split.
    + apply CaffeineState_eqb_eq.
    + rewrite andb_true_iff. now rewrite CaffeineState_eqb_eq.
Qed.

Lemma SetThreadExecutionState_flags_witness :
  hasFlag (executionFlags CaffeineState.Active true) ES_CONTINUOUS = true /\
  (hasFlag (executionFlags CaffeineState.Active true) ES_DISPLAY_REQUIRED = true ->
   hasFlag (executionFlags CaffeineState.Active true) ES_SYSTEM_REQUIRED = true).
Proof.
  apply (proj1 (SetThreadExecutionState_flags (specHost accepting)
                  (startup (FileSettings displayOn)) [SetMode CaffeineMode.Enabled]
                  CaffeineState.Active (CaffeineApp_new (specHost accepting))
                  (executionFlags CaffeineState.Active true))).
  left. reflexivity.
Defined.

(** ** The settings file *)

Lemma result_bind {A B : Type} (c : M A) (k : A -> M B) (w : World) :
  result (bind c k) w = result (k (result c w)) (exec c w).
Proof. unfold exec, result, bind. now destruct (c w). Qed.

Lemma report_settings (host : Host) (decisions : list bool) (w : World) :
  mSettings (app (exec (report host decisions) w)) = mSettings (app w).
Proof.
  revert w. induction decisions as [|active rest IH]; intros w; simpl; [reflexivity|].
  rewrite exec_bind, IH.
  destruct active; unfold EnableCaffeine, DisableCaffeine, OnCustomMessage;
    rewrite exec_bind, exec_ret, Z.eqb_refl; simpl;
    apply UpdateExecutionState_frame.
Qed.

Lemma SetCaffeineMode_settings (host : Host) (mode : CaffeineMode.t) (w : World) :
  mSettings (app (exec (SetCaffeineMode host mode) w)) = mSettings (app w).
Proof.
  rewrite SetCaffeineMode_unfold. cbv zeta.
  unfold exec at 1 2, UpdateTip, UpdateIcon, bind, this, emit. simpl.
  rewrite report_settings. simpl. now rewrite report_settings.
Qed.

(** A file that is not JSON makes [Init] give up, where the same start with
    a file that holds settings goes through. *)
Lemma Init_fails_on_invalid_json :
  result (Init (specHost accepting) (startup FileNotJson))
         (CaffeineApp_new (specHost accepting)) = false /\
  result (Init (specHost accepting) (startup (FileSettings allOff)))
         (CaffeineApp_new (specHost accepting)) = true.
Proof. split; reflexivity. Qed.

(** C9, as the code has it: [LoadSettings] falls back to [Settings()] and
    reports success when the file is JSON that does not give settings; it
    reports failure, with nothing changed, when the file cannot be opened or
    is not JSON.  [Init] on the constructed object succeeds exactly when the
    notification icon could be created and the settings file is not one of
    these two; it then runs with [Settings()] when the file is absent or does
    not give settings, and with the settings of the file otherwise.  When
    the file is absent, the first thing [Init] does is to save [Settings()]
    to the settings file. *)
Theorem Init_settings_file (host : Host) (s : Startup) (w0 : World) :
  let w := CaffeineApp_new host in
  LoadSettings host FileNotSettings w0
    = (true, mkWorld (set_mSettings (Settings_default host) (app w0)) (effects w0)) /\
  LoadSettings host FileNotJson w0 = (false, w0) /\
  LoadSettings host FileUnreadable w0 = (false, w0) /\
  (result (Init host s) w = true <->
     NotifyIcon_Init s = true /\
     settingsFile s <> FileUnreadable /\ settingsFile s <> FileNotJson) /\
  (result (Init host s) w = true ->
     (settingsFile s = FileAbsent \/ settingsFile s = FileNotSettings ->
        mSettings (app (exec (Init host s) w)) = Settings_default host) /\
     (forall given, settingsFile s = FileSettings given ->
        mSettings (app (exec (Init host s) w)) = given)) /\
  (settingsFile s = FileAbsent ->
     exists later,
       effects (exec (Init host s) w)
       = later ++ [CallSaveSettings (Settings_default host)]).
Proof.
  intros w. split; [reflexivity|]. split; [reflexivity|]. split; [reflexivity|].
  assert (Hres : result (Init host s) w
                 = match settingsFile s with
                   | FileUnreadable | FileNotJson => false
                   | _ => NotifyIcon_Init s
                   end).
  { unfold Init. rewrite result_bind.
    destruct (settingsFile s); simpl; try reflexivity;
      rewrite ?result_bind, ?exec_bind; simpl;
      destruct (NotifyIcon_Init s); simpl; try reflexivity;
      now rewrite !result_bind. }
  assert (Hset : forall given,
    match settingsFile s with
    | FileAbsent | FileNotSettings => given = Settings_default host
    | FileSettings st => given = st
    | _ => False
    end ->
    NotifyIcon_Init s = true ->
    mSettings (app (exec (Init host s) w)) = given).
  { intros given Hfile Hicon. unfold Init. rewrite exec_bind, Hicon.
    destruct (settingsFile s); try contradiction; subst given; simpl;
      rewrite ?result_bind, ?exec_bind; simpl;
      now rewrite SetCaffeineMode_settings. }
  split; [|split].
  - rewrite Hres. destruct (settingsFile s); split;
      try (intros H; repeat split; (exact H || discriminate));
      try (intros [H _]; exact H);
      try discriminate;
      intros [_ [H1 H2]]; congruence.
  - intros Hok. rewrite Hres in Hok.
    assert (Hicon : NotifyIcon_Init s = true) by (destruct (settingsFile s); congruence).
    split.
    + intros [Hf|Hf]; apply Hset; try exact Hicon; now rewrite Hf.
    + intros given Hf. apply Hset; try exact Hicon. now rewrite Hf.
  - intros Hf. unfold Init. rewrite exec_bind, Hf.
    rewrite result_bind. simpl negb. cbv iota.
    change (exec (bind SaveSettings (fun _ => ret true)) w)
      with (mkWorld (app w) [CallSaveSettings (Settings_default host)]).
    rewrite exec_bind, exec_assign. simpl app. simpl effects.
    destruct (NotifyIcon_Init s); simpl negb; cbv iota.
    + rewrite !exec_bind, exec_ret, exec_emit.
      match goal with
      | |- context [exec (SetCaffeineMode host ?m) ?w1] =>
          destruct (SetCaffeineMode_effects host m w1) as [before [after [E _]]];
          exists (CallUpdateAppIcon
                  :: (after ++ CallModeStart m
                      :: before ++ [CallModeStop (mCaffeineMode (app w1))]))
      end.
      apply (f_equal (cons CallUpdateAppIcon)) in E. exact E.
    + exists []. reflexivity.
Qed.

Lemma Init_settings_file_witness :
  mSettings
    (app (exec (Init (specHost accepting) (startup FileNotSettings))
            (CaffeineApp_new (specHost accepting))))
  = allOff.
Proof.
  exact (proj1 (proj1 (proj2 (proj2 (proj2 (proj2
    (Init_settings_file (specHost accepting) (startup FileNotSettings)
       (CaffeineApp_new (specHost accepting))))))) eq_refl) (or_intror eq_refl)).
Defined.

(** ** Repeated requests *)

Lemma noNeed_intro (a : CaffeineApp) (state : CaffeineState.t) :
  mCaffeineState a = state ->
  (mCaffeineMode a <> CaffeineMode.Disabled -> mKeepDisplayOn a = desiredKeepDisplayOn a) ->
  noNeed a state = true.
Proof.
  intros Hs Hk. unfold noNeed. rewrite Hs, CaffeineState_eqb_refl.
  destruct (mCaffeineMode a) eqn:Em; [reflexivity|..];
    rewrite Hk by discriminate; now rewrite eqb_reflx.
Qed.

Lemma UpdateExecutionState_settled (host : Host) (state : CaffeineState.t) (w : World) :
  noNeed (app (exec (UpdateExecutionState host state) w)) state = true.
Proof.
  destruct (UpdateExecutionState_frame host state w) as [Hm [Hss Hse]].
  apply noNeed_intro; [apply UpdateExecutionState_state|].
  intros Hmode. rewrite Hm in Hmode.
  rewrite (UpdateExecutionState_display host state w Hmode).
  symmetry. now apply desiredKeepDisplayOn_ext.
Qed.

(** X1: a request repeated is a request ignored.  The second of two calls
    of [UpdateExecutionState] with the same state returns at once and leaves
    the world as the first call left it; this is so also when the system
    refused the call made by the first, which is therefore not made again. *)
Theorem UpdateExecutionState_repeated
    (host : Host) (state : CaffeineState.t) (w : World) :
  UpdateExecutionState host state (exec (UpdateExecutionState host state) w)
  = (tt, exec (UpdateExecutionState host state) w).
Proof.
  rewrite UpdateExecutionState_eq at 1.
  now rewrite UpdateExecutionState_settled.
Qed.

(** ** Lock and unlock *)

Lemma CaffeineApp_eq (a b : CaffeineApp) :
  mSettings a = mSettings b -> mSessionState a = mSessionState b ->
  mCaffeineState a = mCaffeineState b -> mCaffeineMode a = mCaffeineMode b ->
  mKeepDisplayOn a = mKeepDisplayOn b -> a = b.
Proof. destruct a, b; simpl; now intros -> -> -> -> ->. Qed.

Lemma OnSystemMessage_exec (host : Host) (wParam : Z) (session : SessionState.t) (w : World) :
  (wParam = WTS_SESSION_LOCK /\ session = SessionState.Locked) \/
  (wParam = WTS_SESSION_UNLOCK /\ session = SessionState.Unlocked) ->
  exec (OnSystemMessage host WM_WTSSESSION_CHANGE wParam) w
  = exec (UpdateExecutionState host (mCaffeineState (app w)))
      (mkWorld (set_mSessionState session (app w)) (effects w)).
Proof.
  intros Hcase. unfold OnSystemMessage. rewrite Z.eqb_refl.
  destruct Hcase as [[-> ->]|[-> ->]].
  - rewrite Z.eqb_refl. rewrite !exec_bind, exec_ret, exec_assign.
    now rewrite RefreshExecutionState_exec.
  - change (WTS_SESSION_UNLOCK =? WTS_SESSION_LOCK) with false. rewrite Z.eqb_refl.
    rewrite !exec_bind, exec_ret, exec_assign.
    now rewrite RefreshExecutionState_exec.
Qed.

(** The fields after a session change. *)
Lemma OnSystemMessage_fields (host : Host) (wParam : Z) (session : SessionState.t) (w : World) :
  (wParam = WTS_SESSION_LOCK /\ session = SessionState.Locked) \/
  (wParam = WTS_SESSION_UNLOCK /\ session = SessionState.Unlocked) ->
  let w' := exec (OnSystemMessage host WM_WTSSESSION_CHANGE wParam) w in
  mSettings (app w') = mSettings (app w) /\
  mSessionState (app w') = session /\
  mCaffeineState (app w') = mCaffeineState (app w) /\
  mCaffeineMode (app w') = mCaffeineMode (app w) /\
  mKeepDisplayOn (app w')
  = match mCaffeineMode (app w) with
    | CaffeineMode.Disabled => mKeepDisplayOn (app w)
    | _ => desiredKeepDisplayOn (set_mSessionState session (app w))
    end.
Proof.
  intros Hcase. cbv zeta. rewrite (OnSystemMessage_exec host wParam session w Hcase).
  set (ws := mkWorld (set_mSessionState session (app w)) (effects w)).
  destruct (UpdateExecutionState_frame host (mCaffeineState (app w)) ws) as [Hm [Hss Hse]].
  pose proof (UpdateExecutionState_state host (mCaffeineState (app w)) ws) as Hst.
  repeat split; try assumption.
  assert (Hmode : mCaffeineMode (app ws) = mCaffeineMode (app w)) by reflexivity.
  destruct (mCaffeineMode (app w)) eqn:Em.
  1: { unfold exec. rewrite UpdateExecutionState_eq. unfold noNeed.
       rewrite Hmode. simpl. now rewrite CaffeineState_eqb_refl. }
  all: apply UpdateExecutionState_display; rewrite Hmode; discriminate.
Qed.

Lemma World_eta (w : World) : mkWorld (app w) (effects w) = w.
Proof. now destruct w. Qed.

(** X2: a lock followed by an unlock is a round trip.  From an unlocked
    world whose recorded display flag is the one its mode asks for, the two
    session messages bring every field back to what it was, and touch no
    policy; when the lock does not change the display flag the mode asks for
    (no [KeepDisplayOn] with [DisableOnLockScreen], or Disabled mode), they
    do nothing but pass through the locked session state: no call of the
    system, no icon, no tip. *)
Theorem lock_unlock_round_trip (host : Host) (w : World) :
  mSessionState (app w) = SessionState.Unlocked ->
  (mCaffeineMode (app w) <> CaffeineMode.Disabled ->
     mKeepDisplayOn (app w) = desiredKeepDisplayOn (app w)) ->
  let locked := exec (OnSystemMessage host WM_WTSSESSION_CHANGE WTS_SESSION_LOCK) w in
  let back := exec (OnSystemMessage host WM_WTSSESSION_CHANGE WTS_SESSION_UNLOCK) locked in
  mSessionState (app locked) = SessionState.Locked /\
  app back = app w /\
  existsb isPolicyCall (since w back) = false /\
  (desiredKeepDisplayOn (set_mSessionState SessionState.Locked (app w))
     = desiredKeepDisplayOn (app w) -> back = w).
Proof.
  intros Hun Hsync locked back.
  assert (Hl : (WTS_SESSION_LOCK = WTS_SESSION_LOCK /\ SessionState.Locked = SessionState.Locked)
               \/ (WTS_SESSION_LOCK = WTS_SESSION_UNLOCK
                   /\ SessionState.Locked = SessionState.Unlocked)) by (left; auto).
  assert (Hu : (WTS_SESSION_UNLOCK = WTS_SESSION_LOCK
                /\ SessionState.Unlocked = SessionState.Locked)
               \/ (WTS_SESSION_UNLOCK = WTS_SESSION_UNLOCK
                   /\ SessionState.Unlocked = SessionState.Unlocked)) by (right; auto).
  destruct (OnSystemMessage_fields host _ _ w Hl) as [Hse1 [Hss1 [Hst1 [Hm1 Hk1]]]].
  destruct (OnSystemMessage_fields host _ _ locked Hu) as [Hse2 [Hss2 [Hst2 [Hm2 Hk2]]]].
  fold locked in Hse1, Hss1, Hst1, Hm1, Hk1, Hse2, Hss2, Hst2, Hm2, Hk2.
  fold back in Hse2, Hss2, Hst2, Hm2, Hk2.
  split; [exact Hss1|]. split; [|split].
  - apply CaffeineApp_eq; try congruence.
    rewrite Hk2, Hm1.
    destruct (mCaffeineMode (app w)) eqn:Em; [exact Hk1|..];
      (rewrite Hsync by discriminate; apply desiredKeepDisplayOn_ext; simpl; congruence).
  - pose proof (OnSystemMessage_quiet host WM_WTSSESSION_CHANGE WTS_SESSION_LOCK w) as Q1.
    pose proof (OnSystemMessage_quiet host WM_WTSSESSION_CHANGE WTS_SESSION_UNLOCK locked)
      as Q2.
    apply quiet_frame in Q1 as [_ [n1 [E1 F1]]]. apply quiet_frame in Q2 as [_ [n2 [E2 F2]]].
    fold locked in E1, E2. fold back in E2.
    rewrite (since_app w back (n2 ++ n1)) by (rewrite E2, E1; apply app_assoc).
    rewrite existsb_app, F1, F2. reflexivity.
  - intros Hsame.
    assert (El : locked = mkWorld (set_mSessionState SessionState.Locked (app w)) (effects w)).
    { unfold locked. rewrite (OnSystemMessage_exec host _ _ w Hl).
      unfold exec. rewrite UpdateExecutionState_eq. simpl.
      rewrite noNeed_intro; [reflexivity | reflexivity |].
      simpl. intros Hmode. rewrite Hsame. now apply Hsync. }
    assert (Ew : mkWorld (set_mSessionState SessionState.Unlocked (app locked))
                   (effects locked) = w).
    { rewrite El. simpl. unfold set_mSessionState. simpl. rewrite <- Hun.
      destruct w as [[] ?]. reflexivity. }
    unfold back. rewrite (OnSystemMessage_exec host _ _ locked Hu), Ew, Hst1.
    unfold exec. rewrite UpdateExecutionState_eq.
    rewrite noNeed_intro; [reflexivity | reflexivity | exact Hsync].
Qed.

Lemma lock_unlock_round_trip_witness :
  app (exec (OnSystemMessage (specHost accepting) WM_WTSSESSION_CHANGE WTS_SESSION_UNLOCK)
         (exec (OnSystemMessage (specHost accepting) WM_WTSSESSION_CHANGE WTS_SESSION_LOCK)
            (worldOf CaffeineMode.Enabled SessionState.Unlocked CaffeineState.Active true)))
  = app (worldOf CaffeineMode.Enabled SessionState.Unlocked CaffeineState.Active true).
Proof.
  refine (proj1 (proj2 (lock_unlock_round_trip (specHost accepting)
    (worldOf CaffeineMode.Enabled SessionState.Unlocked CaffeineState.Active true)
    eq_refl _))).
  intros _. reflexivity.
Defined.

(** X3: [OnSystemMessage] answers [true] exactly for the session-change
    message with [WTS_SESSION_LOCK] or [WTS_SESSION_UNLOCK]; for every other
    message, and for every other session event (a logon, a remote connect),
    it answers [false] and leaves the world as it is. *)
Theorem OnSystemMessage_handled (host : Host) (uMsg wParam : Z) (w : World) :
  (result (OnSystemMessage host uMsg wParam) w = true <->
     uMsg = WM_WTSSESSION_CHANGE /\
     (wParam = WTS_SESSION_LOCK \/ wParam = WTS_SESSION_UNLOCK)) /\
  (result (OnSystemMessage host uMsg wParam) w = false ->
     exec (OnSystemMessage host uMsg wParam) w = w).
Proof.
  unfold OnSystemMessage.
  destruct (Z.eqb_spec uMsg WM_WTSSESSION_CHANGE) as [Hm|Hm].
  2: { split; [split; [discriminate | intros [H _]; contradiction] | reflexivity]. }
  destruct (Z.eqb_spec wParam WTS_SESSION_LOCK) as [Hl|Hl].
  { rewrite !result_bind. simpl. split; [split; auto | discriminate]. }
  destruct (Z.eqb_spec wParam WTS_SESSION_UNLOCK) as [Hu|Hu].
  { rewrite !result_bind. simpl. split; [split; auto | discriminate]. }
  split; [split; [discriminate | intros [_ [H|H]]; contradiction] | reflexivity].
Qed.

Lemma OnSystemMessage_handled_witness :
  exec (OnSystemMessage (specHost accepting) WM_WTSSESSION_CHANGE 5)
       (worldOf CaffeineMode.Enabled SessionState.Unlocked CaffeineState.Active true)
  = worldOf CaffeineMode.Enabled SessionState.Unlocked CaffeineState.Active true.
Proof.
  exact (proj2 (OnSystemMessage_handled (specHost accepting) WM_WTSSESSION_CHANGE 5
    (worldOf CaffeineMode.Enabled SessionState.Unlocked CaffeineState.Active true))
    eq_refl).
Defined.

(** ** Reports *)

Lemma UpdateExecutionState_since (host : Host) (state : CaffeineState.t) (w : World) :
  let w' := exec (UpdateExecutionState host state) w in
  existsb isPolicyCall (since w w') = false /\
  (length (osCalls (since w w')) <= 1)%nat.
Proof.
  cbv zeta. split.
  - pose proof (UpdateExecutionState_quiet host state w) as Q.
    apply quiet_frame in Q as [_ [new [E F]]]. now rewrite (since_app _ _ new E).
  - destruct (UpdateExecutionState_effects host state w) as [new [E L]].
    now rewrite (since_app _ _ new E).
Qed.

(** X4: a custom message with another number than the application's is
    dropped: the world stays as it is.  The application's message records
    Active for every [wParam] other than zero and Inactive for zero, whatever
    the mode; it leaves the mode, the session state and the settings alone,
    touches no policy and calls the system at most once. *)
Theorem OnCustomMessage_report (host : Host) (uMsg wParam : Z) (w : World) :
  (uMsg <> WM_CAFFEINE_TAKE_UPDATE_EXECUTION_STATE host ->
     OnCustomMessage host uMsg wParam w = (tt, w)) /\
  (uMsg = WM_CAFFEINE_TAKE_UPDATE_EXECUTION_STATE host ->
     let w' := exec (OnCustomMessage host uMsg wParam) w in
     mCaffeineState (app w')
       = (if wParam =? 0 then CaffeineState.Inactive else CaffeineState.Active) /\
     mCaffeineMode (app w') = mCaffeineMode (app w) /\
     mSessionState (app w') = mSessionState (app w) /\
     mSettings (app w') = mSettings (app w) /\
     existsb isPolicyCall (since w w') = false /\
     (length (osCalls (since w w')) <= 1)%nat).
Proof.
  unfold OnCustomMessage. split.
  - intros Hne. apply Z.eqb_neq in Hne. now rewrite Hne.
  - intros ->. rewrite Z.eqb_refl. cbv zeta.
    destruct (wParam =? 0); simpl negb; cbv iota.
    + split; [apply UpdateExecutionState_state|].
      destruct (UpdateExecutionState_frame host CaffeineState.Inactive w) as [H1 [H2 H3]].
      destruct (UpdateExecutionState_since host CaffeineState.Inactive w) as [H4 H5].
      auto 6.
    + split; [apply UpdateExecutionState_state|].
      destruct (UpdateExecutionState_frame host CaffeineState.Active w) as [H1 [H2 H3]].
      destruct (UpdateExecutionState_since host CaffeineState.Active w) as [H4 H5].
      auto 6.
Qed.

Lemma OnCustomMessage_report_witness :
  mCaffeineState
    (app (exec (OnCustomMessage (specHost accepting) (WM_APP + 1) 42)
            (worldOf CaffeineMode.Auto SessionState.Unlocked CaffeineState.Inactive false)))
  = CaffeineState.Active.
Proof.
  exact (proj1 (proj2 (OnCustomMessage_report (specHost accepting) (WM_APP + 1) 42
    (worldOf CaffeineMode.Auto SessionState.Unlocked CaffeineState.Inactive false))
    eq_refl)).
Defined.

(** ** Giving the system back *)

Lemma inSync_quiet (w w' : World) : many quiet w w' -> inSync w -> inSync w'.
Proof.
  intros Q. apply (many_invariant inSync w w' atom_inSync). now apply quiet_many_atom.
Qed.

Lemma DisableCaffeine_exec (host : Host) (w : World) :
  exec (DisableCaffeine host) w
  = exec (UpdateExecutionState host CaffeineState.Inactive) w.
Proof.
  unfold DisableCaffeine, OnCustomMessage.
  rewrite !exec_bind, !exec_ret, Z.eqb_refl. reflexivity.
Qed.

(** X5: [DisableCaffeine] asks the system to let go.  Called in any world
    the program can be in, it answers [true] and leaves the state Inactive
    recorded; when the recorded state was Active it makes exactly one call
    of [SetThreadExecutionState], for [ES_CONTINUOUS] alone; and afterwards
    the latest call of [SetThreadExecutionState] ever made, if there is one,
    asked for [ES_CONTINUOUS] alone, accepted or not.  No policy is touched
    and the mode stays. *)
Theorem DisableCaffeine_reachable
    (host : Host) (s : Startup) (stimuli : list Stimulus) :
  let w := reachable host s stimuli in
  let w' := exec (DisableCaffeine host) w in
  result (DisableCaffeine host) w = true /\
  mCaffeineState (app w') = CaffeineState.Inactive /\
  (forall flags, hd_error (osCalls (effects w')) = Some flags -> flags = ES_CONTINUOUS) /\
  (mCaffeineState (app w) = CaffeineState.Active ->
     osCalls (since w w') = [ES_CONTINUOUS]) /\
  existsb isPolicyCall (since w w') = false /\
  mCaffeineMode (app w') = mCaffeineMode (app w).
Proof.
  intros w w'.
  assert (E : w' = exec (UpdateExecutionState host CaffeineState.Inactive) w)
    by apply DisableCaffeine_exec.
  assert (Hst : mCaffeineState (app w') = CaffeineState.Inactive).
  { rewrite E. apply UpdateExecutionState_state. }
  split.
  { unfold DisableCaffeine, result, bind.
    now destruct (OnCustomMessage host _ 0 w). }
  split; [exact Hst|]. split; [|split; [|split]].
  - intros flags Hhd.
    assert (Hs : inSync w').
    { rewrite E. apply (inSync_quiet w); [apply UpdateExecutionState_quiet|].
      apply reachable_inSync. }
    unfold inSync in Hs. destruct (osCalls (effects w')); [discriminate|].
    injection Hhd as ->. now rewrite Hs, Hst.
  - intros Hact. rewrite E.
    destruct (UpdateExecutionState_osCalls host CaffeineState.Inactive w) as [[H _]|[_ H]].
    + apply noNeed_recorded in H as [H _]. congruence.
    + exact H.
  - rewrite E. apply UpdateExecutionState_since.
  - rewrite E. apply UpdateExecutionState_frame.
Qed.

Lemma DisableCaffeine_reachable_witness :
  osCalls
    (since (reachable (specHost accepting) (startup (FileSettings displayOn))
              [SetMode CaffeineMode.Enabled])
       (exec (DisableCaffeine (specHost accepting))
          (reachable (specHost accepting) (startup (FileSettings displayOn))
             [SetMode CaffeineMode.Enabled])))
  = [ES_CONTINUOUS].
Proof.
  exact (proj1 (proj2 (proj2 (proj2
    (DisableCaffeine_reachable (specHost accepting) (startup (FileSettings displayOn))
       [SetMode CaffeineMode.Enabled])))) eq_refl).
Defined.

(** ** Initialisation *)

Lemma result_ret {A : Type} (x : A) (w : World) : result (ret x) w = x.
Proof. reflexivity. Qed.

Lemma report_session (host : Host) (decisions : list bool) (w : World) :
  mSessionState (app (exec (report host decisions) w)) = mSessionState (app w).
Proof.
  revert w. induction decisions as [|active rest IH]; intros w; simpl; [reflexivity|].
  rewrite exec_bind, IH.
  destruct active; unfold EnableCaffeine, DisableCaffeine, OnCustomMessage;
    rewrite exec_bind, exec_ret, Z.eqb_refl; simpl;
    apply UpdateExecutionState_frame.
Qed.

Lemma SetCaffeineMode_session (host : Host) (mode : CaffeineMode.t) (w : World) :
  mSessionState (app (exec (SetCaffeineMode host mode) w)) = mSessionState (app w).
Proof.
  rewrite SetCaffeineMode_unfold. cbv zeta.
  unfold exec at 1 2, UpdateTip, UpdateIcon, bind, this, emit. simpl.
  rewrite report_session. simpl. now rewrite report_session.
Qed.

(** Reports of inactivity to an inactive object in Disabled mode do
    nothing. *)
Lemma report_inactive_Disabled (host : Host) (decisions : list bool) (w : World) :
  mCaffeineMode (app w) = CaffeineMode.Disabled ->
  mCaffeineState (app w) = CaffeineState.Inactive ->
  Forall (fun active => active = false) decisions ->
  exec (report host decisions) w = w.
Proof.
  intros Hm Hs Hall. induction Hall as [|active rest -> _ IH]; [reflexivity|].
  simpl. rewrite exec_bind.
  assert (E : exec (DisableCaffeine host) w = w).
  { unfold DisableCaffeine, OnCustomMessage. rewrite exec_bind, exec_ret, Z.eqb_refl.
    simpl. unfold exec. rewrite UpdateExecutionState_eq. unfold noNeed.
    now rewrite Hm, Hs. }
  now rewrite E.
Qed.

Lemma SetCaffeineMode_running (host : Host) (mode : CaffeineMode.t) (w : World) :
  running (effects w) = [] \/ running (effects w) = [mCaffeineMode (app w)] ->
  running (effects (exec (SetCaffeineMode host mode) w)) = [mode].
Proof.
  intros Hnow.
  destruct (SetCaffeineMode_effects host mode w) as [before [after [E [Hb Ha]]]].
  rewrite E, <- app_assoc. rewrite (running_quiet_app after) by exact Ha.
  simpl. rewrite <- app_assoc. rewrite (running_quiet_app before) by exact Hb.
  simpl. now rewrite (stopOne_bracket _ _ Hnow).
Qed.

(** X6: what [Init] leaves behind on the constructed object.  When it fails
    (settings file unreadable or not JSON, or no notification icon), the
    coordinator has not moved: Disabled, Inactive, no display flag, no policy
    started or stopped, no call of the system.  When it succeeds, the mode is
    Disabled and its policy is the one policy running, the session state is
    the answer of [IsSessionLocked], and the application icon was set last;
    and if the Disabled policy reports nothing but inactivity, the object is
    still Inactive and the system has not been called. *)
Theorem Init_outcome (host : Host) (s : Startup) :
  let w := exec (Init host s) (CaffeineApp_new host) in
  (result (Init host s) (CaffeineApp_new host) = false ->
     mCaffeineMode (app w) = CaffeineMode.Disabled /\
     recorded (app w) = (CaffeineState.Inactive, false) /\
     existsb isPolicyCall (effects w) = false /\
     osCalls (effects w) = []) /\
  (result (Init host s) (CaffeineApp_new host) = true ->
     mCaffeineMode (app w) = CaffeineMode.Disabled /\
     mSessionState (app w) = IsSessionLocked s /\
     running (effects w) = [CaffeineMode.Disabled] /\
     hd_error (effects w) = Some CallUpdateAppIcon /\
     (Forall (fun active => active = false)
        (mode_Stop host CaffeineMode.Disabled ++ mode_Start host CaffeineMode.Disabled) ->
      recorded (app w) = (CaffeineState.Inactive, false) /\
      osCalls (effects w) = [])).
Proof.
  assert (Hok : forall w1,
    mCaffeineMode (app w1) = CaffeineMode.Disabled ->
    recorded (app w1) = (CaffeineState.Inactive, false) ->
    running (effects w1) = [] -> osCalls (effects w1) = [] ->
    let w2 := exec (SetCaffeineMode host CaffeineMode.Disabled) w1 in
    mCaffeineMode (app w2) = CaffeineMode.Disabled /\
    mSessionState (app w2) = mSessionState (app w1) /\
    running (effects w2) = [CaffeineMode.Disabled] /\
    (Forall (fun active => active = false)
       (mode_Stop host CaffeineMode.Disabled ++ mode_Start host CaffeineMode.Disabled) ->
     recorded (app w2) = (CaffeineState.Inactive, false) /\
     osCalls (effects w2) = [])).
  { intros w1 Hm Hr Hrun Hos w2.
    split; [apply SetCaffeineMode_mode|].
    split; [apply SetCaffeineMode_session|].
    split; [apply SetCaffeineMode_running; now left|].
    intros Hall. apply Forall_app in Hall as [Hstop Hstart].
    injection Hr as Hst Hk.
    unfold w2. rewrite SetCaffeineMode_unfold, Hm. cbv zeta.
    rewrite (report_inactive_Disabled host (mode_Stop host CaffeineMode.Disabled));
      [| exact Hm | exact Hst | exact Hstop].
    simpl app. simpl effects.
    rewrite (report_inactive_Disabled host (mode_Start host CaffeineMode.Disabled));
      [| reflexivity | exact Hst | exact Hstart].
    unfold exec, UpdateTip, UpdateIcon, bind, this, emit, recorded, set_mCaffeineMode.
    simpl. rewrite Hst, Hk, Hos. split; reflexivity. }
  cbv zeta. unfold Init. rewrite result_bind, exec_bind.
  destruct s as [file locked icon]. simpl settingsFile. simpl NotifyIcon_Init.
  simpl IsSessionLocked.
  destruct file, icon; rewrite ?result_bind, ?result_ret, ?exec_bind; simpl;
    rewrite ?result_bind, ?result_ret.
  all: (split; [intros _; repeat split | discriminate])
       || (split; [discriminate | intros _]).
  all: rewrite !exec_bind; simpl.
  all: match goal with
       | |- context [exec (SetCaffeineMode _ _) ?w1] =>
           destruct (Hok w1) as [H1 [H2 [H3 H4]]]; try reflexivity
       end.
  all: repeat split; try assumption; apply H4; assumption.
Qed.

Lemma Init_outcome_witness :
  osCalls (effects (exec (Init (specHost accepting) (startup FileNotJson))
                      (CaffeineApp_new (specHost accepting)))) = [] /\
  running (effects (exec (Init (specHost accepting) (startup FileAbsent))
                      (CaffeineApp_new (specHost accepting))))
  = [CaffeineMode.Disabled].
Proof.
  split.
  - apply (proj1 (Init_outcome (specHost accepting) (startup FileNotJson))). reflexivity.
  - apply (proj2 (Init_outcome (specHost accepting) (startup FileAbsent))). reflexivity.
Defined.

(** ** The icon and the tip *)

Lemma UpdateIcon_exec (w : World) :
  exec UpdateIcon w
  = mkWorld (app w)
      (CallUpdateIcon (iconOf (mCaffeineMode (app w)) (mCaffeineState (app w)))
       :: effects w).
Proof.
  unfold exec, UpdateIcon, bind, this, emit. simpl.
  now destruct (mCaffeineMode (app w)), (mCaffeineState (app w)).
Qed.

Lemma UpdateTip_exec (w : World) :
  exec UpdateTip w
  = mkWorld (app w)
      (CallUpdateTip (tipOf (iconOf (mCaffeineMode (app w)) (mCaffeineState (app w))))
       :: effects w).
Proof.
  unfold exec, UpdateTip, bind, this, emit. simpl.
  now destruct (mCaffeineMode (app w)), (mCaffeineState (app w)).
Qed.

Lemma upToDate_shown (w : World) : upToDate (exec UpdateTip (exec UpdateIcon w)).
Proof.
  rewrite UpdateIcon_exec, UpdateTip_exec. split; simpl; intros x H; now injection H.
Qed.

Lemma upToDate_same (w w' : World) :
  mCaffeineMode (app w') = mCaffeineMode (app w) ->
  mCaffeineState (app w') = mCaffeineState (app w) ->
  lastIcon (effects w') = lastIcon (effects w) ->
  lastTip (effects w') = lastTip (effects w) ->
  upToDate w -> upToDate w'.
Proof. unfold upToDate. intros -> -> -> ->. auto. Qed.

Lemma UpdateExecutionState_upToDate (host : Host) (state : CaffeineState.t) (w : World) :
  neverRefuses host -> upToDate w -> upToDate (exec (UpdateExecutionState host state) w).
Proof.
  intros Hos Hw. unfold exec. rewrite UpdateExecutionState_eq. simpl.
  destruct (noNeed (app w) state); [exact Hw|].
  unfold published.
  destruct (Z.eqb_spec
    (os_SetThreadExecutionState host (effects w)
       (executionFlags state (desiredKeepDisplayOn (app w)))) 0) as [H0|_].
  - now apply Hos in H0.
  - rewrite exec_bind. apply upToDate_shown.
Qed.

Lemma OnCustomMessage_upToDate (host : Host) (uMsg wParam : Z) (w : World) :
  neverRefuses host -> upToDate w -> upToDate (exec (OnCustomMessage host uMsg wParam) w).
Proof.
  intros Hos Hw. unfold OnCustomMessage.
  destruct (uMsg =? _); [|exact Hw].
  destruct (negb _); now apply UpdateExecutionState_upToDate.
Qed.

Lemma OnSystemMessage_upToDate (host : Host) (uMsg wParam : Z) (w : World) :
  neverRefuses host -> upToDate w -> upToDate (exec (OnSystemMessage host uMsg wParam) w).
Proof.
  intros Hos Hw. unfold OnSystemMessage.
  destruct (uMsg =? _); [|exact Hw].
  destruct (wParam =? WTS_SESSION_LOCK); [|destruct (wParam =? WTS_SESSION_UNLOCK)].
  3: exact Hw.
  all: rewrite !exec_bind, exec_ret, exec_assign, RefreshExecutionState_exec;
    apply UpdateExecutionState_upToDate; [exact Hos|];
    now apply (upToDate_same w).
Qed.

Lemma ShowSettingsDialog_upToDate (host : Host) (dialog : option Settings) (w : World) :
  neverRefuses host -> upToDate w -> upToDate (exec (ShowSettingsDialog host dialog) w).
Proof.
  intros Hos Hw. destruct dialog as [new|]; simpl; [|exact Hw].
  rewrite !exec_bind, exec_ret, exec_assign, RefreshExecutionState_exec.
  set (w1 := exec (UpdateExecutionState host _) _).
  assert (H1 : upToDate w1).
  { apply UpdateExecutionState_upToDate; [exact Hos|]. now apply (upToDate_same w). }
  now apply (upToDate_same w1).
Qed.

Lemma SetCaffeineMode_upToDate (host : Host) (mode : CaffeineMode.t) (w : World) :
  upToDate (exec (SetCaffeineMode host mode) w).
Proof. rewrite SetCaffeineMode_unfold. apply upToDate_shown. Qed.

Lemma handle_upToDate (host : Host) (s : Stimulus) (w : World) :
  neverRefuses host -> upToDate w -> upToDate (exec (handle host s) w).
Proof.
  intros Hos Hw. destruct s as [mode| |dialog|uMsg wParam|uMsg wParam]; simpl.
  - apply SetCaffeineMode_upToDate.
  - unfold ToggleCaffeineMode. rewrite exec_bind. apply SetCaffeineMode_upToDate.
  - rewrite exec_bind, exec_ret. now apply ShowSettingsDialog_upToDate.
  - now apply OnCustomMessage_upToDate.
  - rewrite exec_bind, exec_ret. now apply OnSystemMessage_upToDate.
Qed.

Lemma Init_upToDate (host : Host) (s : Startup) :
  upToDate (exec (Init host s) (CaffeineApp_new host)).
Proof.
  unfold Init. rewrite exec_bind.
  destruct s as [file locked icon]. simpl settingsFile. simpl NotifyIcon_Init.
  destruct file, icon; rewrite ?result_bind, ?result_ret, ?exec_bind; simpl;
    rewrite ?result_bind, ?result_ret; simpl.
  all: try (split; simpl; intros x H; discriminate).
  all: rewrite !exec_bind; simpl;
    match goal with
    | |- context [exec (SetCaffeineMode ?h ?m) ?w1] =>
        apply (upToDate_same (exec (SetCaffeineMode h m) w1));
          try reflexivity; apply SetCaffeineMode_upToDate
    end.
Qed.

(** X7: the tray never lies while the system accepts its calls.  With a
    system that refuses no call of [SetThreadExecutionState], in every world
    the program can be in, the icon chosen by the latest [UpdateIcon] is the
    icon of the active mode and the recorded state, and the tip chosen by
    the latest [UpdateTip] is the tip that names this icon. *)
Theorem tray_up_to_date (host : Host) (s : Startup) (stimuli : list Stimulus) :
  neverRefuses host ->
  let w := reachable host s stimuli in
  (forall icon, lastIcon (effects w) = Some icon ->
     icon = iconOf (mCaffeineMode (app w)) (mCaffeineState (app w))) /\
  (forall tip, lastTip (effects w) = Some tip ->
     tip = tipOf (iconOf (mCaffeineMode (app w)) (mCaffeineState (app w)))).
Proof.
  intros Hos. cbv zeta. unfold reachable.
  assert (H : forall w, upToDate w -> upToDate (run host stimuli w)).
  { induction stimuli as [|st rest IH]; intros w Hw; simpl; [exact Hw|].
    apply IH. now apply handle_upToDate. }
  exact (H _ (Init_upToDate host s)).
Qed.

Lemma tray_up_to_date_witness :
  CaffeineAutoActive
  = iconOf
      (mCaffeineMode
         (app (reachable (specHost accepting) (startup (FileSettings allOff))
                 [SetMode CaffeineMode.Auto; CustomMessage (WM_APP + 1) 1])))
      (mCaffeineState
         (app (reachable (specHost accepting) (startup (FileSettings allOff))
                 [SetMode CaffeineMode.Auto; CustomMessage (WM_APP + 1) 1]))).
Proof.
  apply (tray_up_to_date (specHost accepting) (startup (FileSettings allOff))
           [SetMode CaffeineMode.Auto; CustomMessage (WM_APP + 1) 1]).
  - intros log flags. discriminate.
  - reflexivity.
Defined.

(** ** The settings dialog *)

Lemma ShowSettingsDialog_exec (host : Host) (new : Settings) (w : World) :
  exec (ShowSettingsDialog host (Some new)) w
  = exec SaveSettings
      (exec (UpdateExecutionState host (mCaffeineState (app w)))
         (mkWorld
            (set_mSettings
               (mkSettings (Standard new) (Auto new) (Timer (mSettings (app w)))) (app w))
            (effects w))).
Proof.
  simpl. rewrite !exec_bind, exec_ret, exec_assign. now rewrite RefreshExecutionState_exec.
Qed.

Lemma ShowSettingsDialog_settings (host : Host) (new : Settings) (w : World) :
  mSettings (app (exec (ShowSettingsDialog host (Some new)) w))
  = mkSettings (Standard new) (Auto new) (Timer (mSettings (app w))).
Proof. rewrite ShowSettingsDialog_exec. apply UpdateExecutionState_frame. Qed.

(** X8: an accepted settings dialog.  The Standard and Auto blocks are
    taken from the dialog, the Timer block is kept as it was.  The mode, the
    session state and the recorded state do not change; in a mode other than
    Disabled the recorded display flag is afterwards the one the new settings
    ask for; the system is called at most once and no policy is touched; and
    the last thing done is to save the settings the object now has. *)
Theorem ShowSettingsDialog_accepted (host : Host) (new : Settings) (w : World) :
  let w' := exec (ShowSettingsDialog host (Some new)) w in
  mSettings (app w')
    = mkSettings (Standard new) (Auto new) (Timer (mSettings (app w))) /\
  mCaffeineMode (app w') = mCaffeineMode (app w) /\
  mSessionState (app w') = mSessionState (app w) /\
  mCaffeineState (app w') = mCaffeineState (app w) /\
  (mCaffeineMode (app w) <> CaffeineMode.Disabled ->
     mKeepDisplayOn (app w') = desiredKeepDisplayOn (app w')) /\
  hd_error (effects w') = Some (CallSaveSettings (mSettings (app w'))) /\
  existsb isPolicyCall (since w w') = false /\
  (length (osCalls (since w w')) <= 1)%nat.
Proof.
  cbv zeta. rewrite ShowSettingsDialog_exec.
  set (ws := mkWorld _ (effects w)).
  set (wu := exec (UpdateExecutionState host (mCaffeineState (app w))) ws).
  destruct (UpdateExecutionState_frame host (mCaffeineState (app w)) ws) as [Hm [Hss Hse]].
  pose proof (UpdateExecutionState_state host (mCaffeineState (app w)) ws) as Hst.
  fold wu in Hm, Hss, Hse, Hst.
  assert (Ea : app (exec SaveSettings wu) = app wu) by reflexivity.
  assert (Ee : effects (exec SaveSettings wu)
               = CallSaveSettings (mSettings (app wu)) :: effects wu) by reflexivity.
  rewrite Ea, Ee.
  destruct (UpdateExecutionState_effects host (mCaffeineState (app w)) ws) as [new' [En Hl]].
  fold wu in En. change (effects ws) with (effects w) in En.
  repeat split; try assumption.
  - intros Hne. unfold wu at 1.
    rewrite (UpdateExecutionState_display host _ ws) by exact Hne.
    symmetry. now apply desiredKeepDisplayOn_ext.
  - pose proof (UpdateExecutionState_quiet host (mCaffeineState (app w)) ws) as Q.
    apply quiet_frame in Q as [_ [n [E F]]]. fold wu in E.
    change (effects ws) with (effects w) in E.
    rewrite (since_app w _ (CallSaveSettings (mSettings (app wu)) :: n))
      by (rewrite Ee, E; reflexivity).
    exact F.
  - rewrite (since_app w _ (CallSaveSettings (mSettings (app wu)) :: new'))
      by (rewrite Ee, En; reflexivity).
    exact Hl.
Qed.

Lemma ShowSettingsDialog_accepted_witness :
  mKeepDisplayOn
    (app (exec (ShowSettingsDialog (specHost accepting) (Some allOff))
            (worldOf CaffeineMode.Enabled SessionState.Unlocked CaffeineState.Active true)))
  = desiredKeepDisplayOn
      (app (exec (ShowSettingsDialog (specHost accepting) (Some allOff))
              (worldOf CaffeineMode.Enabled SessionState.Unlocked CaffeineState.Active true))).
Proof.
  refine (proj1 (proj2 (proj2 (proj2 (proj2
    (ShowSettingsDialog_accepted (specHost accepting) allOff
       (worldOf CaffeineMode.Enabled SessionState.Unlocked CaffeineState.Active true))))))
    _).
  discriminate.
Defined.

(** ** The settings along a run *)

Lemma handle_settings (host : Host) (s : Stimulus) (w : World) :
  mSettings (app (exec (handle host s) w))
  = match s with
    | SettingsDialog (Some new) =>
        mkSettings (Standard new) (Auto new) (Timer (mSettings (app w)))
    | _ => mSettings (app w)
    end.
Proof.
  destruct s as [mode| |[new|]|uMsg wParam|uMsg wParam]; simpl handle.
  - apply SetCaffeineMode_settings.
  - unfold ToggleCaffeineMode. rewrite exec_bind. apply SetCaffeineMode_settings.
  - rewrite exec_bind, exec_ret. apply ShowSettingsDialog_settings.
  - reflexivity.
  - unfold OnCustomMessage. destruct (uMsg =? _); [|reflexivity].
    destruct (negb _); apply UpdateExecutionState_frame.
  - rewrite exec_bind, exec_ret. unfold OnSystemMessage.
    destruct (uMsg =? _); [|reflexivity].
    destruct (wParam =? WTS_SESSION_LOCK); [|destruct (wParam =? WTS_SESSION_UNLOCK)].
    3: reflexivity.
    all: rewrite !exec_bind, exec_ret, exec_assign, RefreshExecutionState_exec;
      exact (proj2 (proj2 (UpdateExecutionState_frame host _ _))).
Qed.

Lemma run_app (host : Host) (s1 s2 : list Stimulus) (w : World) :
  run host (s1 ++ s2) w = run host s2 (run host s1 w).
Proof. revert w. induction s1 as [|s rest IH]; intros w; simpl; [reflexivity | apply IH]. Qed.

Lemma run_settings_plain (host : Host) (stimuli : list Stimulus) (w : World) :
  existsb isAcceptedDialog stimuli = false ->
  mSettings (app (run host stimuli w)) = mSettings (app w).
Proof.
  revert w. induction stimuli as [|s rest IH]; intros w H; simpl; [reflexivity|].
  simpl in H. apply orb_false_iff in H as [Hs Hrest].
  rewrite (IH _ Hrest), handle_settings.
  destruct s as [| |[|]| |]; (reflexivity || discriminate).
Qed.

(** X9: the settings along a run.  No stimulus changes the Timer block;
    stimuli without an accepted settings dialog change no settings at all;
    and after a run the Standard and Auto blocks are those of the last
    accepted dialog. *)
Theorem run_settings (host : Host) (stimuli : list Stimulus) (w : World) :
  Timer (mSettings (app (run host stimuli w))) = Timer (mSettings (app w)) /\
  (existsb isAcceptedDialog stimuli = false ->
     mSettings (app (run host stimuli w)) = mSettings (app w)) /\
  (forall before new after,
     stimuli = before ++ SettingsDialog (Some new) :: after ->
     existsb isAcceptedDialog after = false ->
     Standard (mSettings (app (run host stimuli w))) = Standard new /\
     Auto (mSettings (app (run host stimuli w))) = Auto new).
Proof.
  split; [|split].
  - revert w. induction stimuli as [|s rest IH]; intros w; simpl; [reflexivity|].
    rewrite IH, handle_settings. now destruct s as [| |[|]| |].
  - apply run_settings_plain.
  - intros before new after -> Hafter.
    rewrite run_app.
    change (run host (SettingsDialog (Some new) :: after) (run host before w))
      with (run host after
              (exec (handle host (SettingsDialog (Some new))) (run host before w))).
    rewrite (run_settings_plain host after _ Hafter), handle_settings. now split.
Qed.

Lemma run_settings_witness :
  mSettings
    (app (run (specHost accepting)
            [SetMode CaffeineMode.Timer; CustomMessage (WM_APP + 1) 0;
             SystemMessage WM_WTSSESSION_CHANGE WTS_SESSION_LOCK]
            (worldOf CaffeineMode.Enabled SessionState.Unlocked CaffeineState.Active true)))
  = displayOn.
Proof.
  apply (run_settings (specHost accepting)
           [SetMode CaffeineMode.Timer; CustomMessage (WM_APP + 1) 0;
            SystemMessage WM_WTSSESSION_CHANGE WTS_SESSION_LOCK]
           (worldOf CaffeineMode.Enabled SessionState.Unlocked CaffeineState.Active true)).
  reflexivity.
Defined.

(** ** What the policies report *)

Lemma last_cons_default {A : Type} (l : list A) (x d : A) : last (x :: l) d = last l x.
Proof.
  revert x d. induction l as [|y l IH]; intros x d; [reflexivity|].
  change (last (x :: y :: l) d) with (last (y :: l) d). now rewrite !IH.
Qed.

Lemma last_app_default {A : Type} (l1 l2 : list A) (d : A) :
  last (l1 ++ l2) d = last l2 (last l1 d).
Proof.
  revert d. induction l1 as [|x l1 IH]; intros d; [reflexivity|].
  rewrite <- app_comm_cons. now rewrite !last_cons_default, IH.
Qed.

Lemma report_cons (host : Host) (active : bool) (rest : list bool) (w : World) :
  exec (report host (active :: rest)) w
  = exec (report host rest) (exec (UpdateExecutionState host (stateOf active)) w).
Proof.
  simpl. rewrite exec_bind.
  destruct active; unfold EnableCaffeine, DisableCaffeine, OnCustomMessage;
    now rewrite exec_bind, exec_ret, Z.eqb_refl.
Qed.

Lemma report_state (host : Host) (decisions : list bool) (w : World) :
  mCaffeineState (app (exec (report host decisions) w))
  = last (map stateOf decisions) (mCaffeineState (app w)).
Proof.
  revert w. induction decisions as [|active rest IH]; intros w; [reflexivity|].
  rewrite report_cons, IH, UpdateExecutionState_state.
  simpl map. now rewrite last_cons_default.
Qed.

Lemma report_mode (host : Host) (decisions : list bool) (w : World) :
  mCaffeineMode (app (exec (report host decisions) w)) = mCaffeineMode (app w).
Proof. apply quiet_frame, report_quiet. Qed.

(** After a report the recorded display flag is the one asked for. *)
Lemma report_display (host : Host) (decisions : list bool) (w : World) :
  mCaffeineMode (app w) <> CaffeineMode.Disabled ->
  decisions <> [] \/ mKeepDisplayOn (app w) = desiredKeepDisplayOn (app w) ->
  mKeepDisplayOn (app (exec (report host decisions) w))
  = desiredKeepDisplayOn (app (exec (report host decisions) w)).
Proof.
  revert w. induction decisions as [|active rest IH]; intros w Hm H.
  - destruct H as [H|H]; [contradiction | exact H].
  - rewrite report_cons.
    destruct (UpdateExecutionState_frame host (stateOf active) w) as [Hm' [Hss Hse]].
    apply IH; [now rewrite Hm'|]. right.
    rewrite (UpdateExecutionState_display host _ w Hm).
    symmetry. now apply desiredKeepDisplayOn_ext.
Qed.

(** X10: what [SetCaffeineMode] records is what the policies said last.
    The state recorded after [SetCaffeineMode] is the one asked for by the
    last report made by the policy stopped and the policy started (first the
    reports of [Stop], then those of [Start]); when the policy started makes
    a report and the mode is not Disabled, the recorded display flag is the
    one the new mode asks for; when neither policy reports, the recorded pair
    is kept from the mode left and the system is not called. *)
Theorem SetCaffeineMode_reports (host : Host) (mode : CaffeineMode.t) (w : World) :
  let reports := mode_Stop host (mCaffeineMode (app w)) ++ mode_Start host mode in
  let w' := exec (SetCaffeineMode host mode) w in
  mCaffeineState (app w') = last (map stateOf reports) (mCaffeineState (app w)) /\
  (mode <> CaffeineMode.Disabled -> mode_Start host mode <> [] ->
     mKeepDisplayOn (app w') = desiredKeepDisplayOn (app w')) /\
  (reports = [] ->
     recorded (app w') = recorded (app w) /\ osCalls (since w w') = []).
Proof.
  cbv zeta. rewrite SetCaffeineMode_unfold. cbv zeta.
  set (w0 := mkWorld (app w) (CallModeStop (mCaffeineMode (app w)) :: effects w)).
  set (w1 := exec (report host (mode_Stop host (mCaffeineMode (app w)))) w0).
  set (ws := mkWorld (set_mCaffeineMode mode (app w1)) (CallModeStart mode :: effects w1)).
  set (w2 := exec (report host (mode_Start host mode)) ws).
  rewrite UpdateIcon_exec, UpdateTip_exec. simpl app. simpl effects.
  split; [|split].
  - unfold w2. rewrite report_state. simpl. unfold w1. rewrite report_state.
    now rewrite map_app, last_app_default.
  - intros Hmode Hstart. unfold w2. apply report_display; [exact Hmode | now left].
  - intros Hnil. apply app_eq_nil in Hnil as [Hstop Hstart].
    assert (E2 : w2 = mkWorld (set_mCaffeineMode mode (app w))
                        (CallModeStart mode :: CallModeStop (mCaffeineMode (app w))
                         :: effects w)).
    { unfold w2, ws, w1. rewrite Hstart, Hstop. reflexivity. }
    rewrite E2. split; [reflexivity|].
    match goal with
    | |- osCalls (since w ?x) = [] =>
        rewrite (since_app w x
          [CallUpdateTip (tipOf (iconOf mode (mCaffeineState (app w))));
           CallUpdateIcon (iconOf mode (mCaffeineState (app w)));
           CallModeStart mode; CallModeStop (mCaffeineMode (app w))])
          by reflexivity
    end.
    reflexivity.
Qed.

Lemma SetCaffeineMode_reports_witness :
  recorded
    (app (exec (SetCaffeineMode (specHost accepting) CaffeineMode.Auto)
            (worldOf CaffeineMode.Enabled SessionState.Unlocked CaffeineState.Active true)))
  = recorded (app (worldOf CaffeineMode.Enabled SessionState.Unlocked
                     CaffeineState.Active true)).
Proof.
  exact (proj1 (proj2 (proj2
    (SetCaffeineMode_reports (specHost accepting) CaffeineMode.Auto
       (worldOf CaffeineMode.Enabled SessionState.Unlocked CaffeineState.Active true)))
    eq_refl)).
Defined.

(** ** Toggling round and round *)

Lemma toggled_mode (host : Host) (n : nat) (w : World) :
  mCaffeineMode (app (toggled host n w)) = Nat.iter n nextMode (mCaffeineMode (app w)).
Proof.
  revert w. induction n as [|n IH]; intros w; [reflexivity|].
  simpl toggled. rewrite IH. unfold ToggleCaffeineMode.
  rewrite exec_bind, SetCaffeineMode_mode.
  change (result this w) with (app w). now rewrite Nat.iter_succ_r.
Qed.

Lemma nextMode_period (n : nat) (mode : CaffeineMode.t) :
  Nat.iter n nextMode mode = Nat.iter (n mod 4) nextMode mode.
Proof.
  assert (H : forall q r,
    Nat.iter (4 * q + r) nextMode mode = Nat.iter r nextMode mode).
  { induction q as [|q IH]; intros r.
    - now rewrite Nat.mul_0_r.
    - replace (4 * S q + r)%nat with (4 + (4 * q + r))%nat by lia.
      rewrite Nat.iter_add, IH. now destruct (Nat.iter r nextMode mode). }
  rewrite <- (H (n / 4)%nat (n mod 4)%nat). now rewrite <- Nat.div_mod_eq.
Qed.

(** X11: toggling has period four from every mode.  After [n] calls of
    [ToggleCaffeineMode] the mode is the one [n mod 4] places further in the
    cycle, whatever the policies and the system do; so the mode is the one
    started from exactly when [n] is a multiple of four. *)
Theorem ToggleCaffeineMode_period (host : Host) (n : nat) (w : World) :
  mCaffeineMode (app (toggled host n w))
    = Nat.iter (n mod 4) nextMode (mCaffeineMode (app w)) /\
  (mCaffeineMode (app (toggled host n w)) = mCaffeineMode (app w) <-> (n mod 4 = 0)%nat).
Proof.
  rewrite toggled_mode, nextMode_period. split; [reflexivity|].
  pose proof (Nat.mod_upper_bound n 4) as Hlt.
  destruct (n mod 4)%nat as [|[|[|[|r]]]]; [| | | |lia].
  all: destruct (mCaffeineMode (app w)); simpl; split;
    solve [reflexivity | discriminate | lia].
Qed.

Lemma ToggleCaffeineMode_period_witness :
  mCaffeineMode
    (app (toggled (specHost refusing) 8
            (worldOf CaffeineMode.Auto SessionState.Locked CaffeineState.Inactive false)))
  = CaffeineMode.Auto.
Proof.
  apply (ToggleCaffeineMode_period (specHost refusing) 8
           (worldOf CaffeineMode.Auto SessionState.Locked CaffeineState.Inactive false)).
  reflexivity.
Defined.

(** ** The size of the icons *)

(** X12: the icons are square and scale with the resolution.  For a
    resolution that is not negative (and small enough for [16 * dpi] to be an
    [int]) the width and the height asked of [mIcons.Load] are both [dpi / 6]
    rounded down: 16 at 96 dpi, 20 at 120, 24 at 144, 32 at 192.  After the
    icons are loaded again the handler calls [UpdateIcon] and nothing else;
    the mode, the state, the display flag, the session state and the settings
    are as before. *)
Theorem OnDpiChange_size (dpi : Z) (w : World) :
  0 <= dpi -> 16 * dpi <= 2147483647 ->
  result (OnDpiChange dpi) w = (dpi / 6, dpi / 6) /\
  exec (OnDpiChange dpi) w = exec UpdateIcon w /\
  app (exec (OnDpiChange dpi) w) = app w.
Proof.
  intros Hdpi _. unfold OnDpiChange. rewrite result_bind, exec_bind, result_ret, exec_ret.
  split; [|split; [reflexivity | now rewrite UpdateIcon_exec]].
  assert (E : Z.quot (16 * dpi) 96 = dpi / 6).
  { rewrite Z.quot_div_nonneg by lia.
    change 96 with (16 * 6). apply Z.div_mul_cancel_l; lia. }
  now rewrite E.
Qed.

Lemma OnDpiChange_size_witness :
  result (OnDpiChange 144)
    (worldOf CaffeineMode.Enabled SessionState.Unlocked CaffeineState.Active true)
  = (24, 24).
Proof.
  refine (proj1 (OnDpiChange_size 144
    (worldOf CaffeineMode.Enabled SessionState.Unlocked CaffeineState.Active true) _ _));
    lia.
Defined.

(** ** The context menu *)

Lemma ShowSettingsDialog_mode (host : Host) (dialog : option Settings) (w : World) :
  mCaffeineMode (app (exec (ShowSettingsDialog host dialog) w)) = mCaffeineMode (app w).
Proof. apply quiet_frame, ShowSettingsDialog_quiet. Qed.

(** X13: what the context menu can do.  An item that is none of the seven
    falls through the [switch] and leaves the world as it is; so do About
    and Exit, apart from the dialog shown and the request to quit.  The three
    mode items leave the object in Disabled, Enabled and Auto mode, the
    toggle item in the mode that follows in the cycle.  Timer mode has no
    item: unless the toggle item is chosen, the object is in Timer mode
    afterwards only if it was before; and in Timer mode the menu opened is
    the one of Auto mode. *)
Theorem OnContextMenuSelect_items
    (host : Host) (ids : MenuIds) (dialog : option Settings) (item : Z) (w : World) :
  NoDup (menuItems ids) ->
  let w' := exec (OnContextMenuSelect host ids dialog item) w in
  let r := result (OnContextMenuSelect host ids dialog item) w in
  (~ In item (menuItems ids) -> r = MenuIgnored /\ w' = w) /\
  (item = IDM_ABOUT ids -> r = MenuAbout /\ w' = w) /\
  (item = IDM_EXIT ids -> r = MenuQuit /\ w' = w) /\
  (item = IDM_DISABLE_CAFFEINE ids -> mCaffeineMode (app w') = CaffeineMode.Disabled) /\
  (item = IDM_ENABLE_CAFFEINE ids -> mCaffeineMode (app w') = CaffeineMode.Enabled) /\
  (item = IDM_ENABLE_AUTO ids -> mCaffeineMode (app w') = CaffeineMode.Auto) /\
  (item = IDM_TOGGLE_CAFFEINE ids ->
     mCaffeineMode (app w') = nextMode (mCaffeineMode (app w))) /\
  (item <> IDM_TOGGLE_CAFFEINE ids ->
     mCaffeineMode (app w') = CaffeineMode.Timer ->
     mCaffeineMode (app w) = CaffeineMode.Timer) /\
  (mCaffeineMode (app w) = CaffeineMode.Timer ->
     OnContextMenuOpen (app w) = IDC_CAFFEINE_AUTO_CONTEXTMENU).
Proof.
  intros Hnd. cbv zeta. unfold menuItems in *.
  repeat match goal with
         | H : NoDup (_ :: _) |- _ => inversion H; clear H; subst
         end.
  simpl In in *.
  assert (Hm : mCaffeineMode (app (exec (ToggleCaffeineMode host) w))
               = nextMode (mCaffeineMode (app w))).
  { unfold ToggleCaffeineMode. rewrite exec_bind. apply SetCaffeineMode_mode. }
  unfold OnContextMenuSelect, OnContextMenuOpen.
  destruct (Z.eqb_spec item (IDM_TOGGLE_CAFFEINE ids));
    [|destruct (Z.eqb_spec item (IDM_DISABLE_CAFFEINE ids));
      [|destruct (Z.eqb_spec item (IDM_ENABLE_CAFFEINE ids));
        [|destruct (Z.eqb_spec item (IDM_ENABLE_AUTO ids));
          [|destruct (Z.eqb_spec item (IDM_SETTINGS ids));
            [|destruct (Z.eqb_spec item (IDM_ABOUT ids));
              [|destruct (Z.eqb_spec item (IDM_EXIT ids))]]]]]].
  all: rewrite ?result_bind, ?exec_bind, ?result_ret, ?exec_ret,
         ?SetCaffeineMode_mode, ?ShowSettingsDialog_mode.
  all: repeat apply conj; intros.
  all: try solve [ reflexivity | assumption | discriminate | congruence
                 | split; reflexivity
                 | exfalso; intuition congruence
                 | match goal with
                   | H : mCaffeineMode _ = CaffeineMode.Timer |- _ => now rewrite H
                   end ].
Qed.

Lemma OnContextMenuSelect_items_witness :
  mCaffeineMode
    (app (exec (OnContextMenuSelect (specHost accepting) exampleIds None 104)
            (worldOf CaffeineMode.Enabled SessionState.Unlocked CaffeineState.Active true)))
  = CaffeineMode.Auto.
Proof.
  refine (proj1 (proj2 (proj2 (proj2 (proj2 (proj2
    (OnContextMenuSelect_items (specHost accepting) exampleIds None 104
       (worldOf CaffeineMode.Enabled SessionState.Unlocked CaffeineState.Active true)
       _)))))) eq_refl).
  unfold menuItems, exampleIds. simpl.
  repeat constructor; simpl; intuition discriminate.
Defined.

(** ** The mode and the session state along a run *)

Lemma handle_mode (host : Host) (s : Stimulus) (w : World) :
  mCaffeineMode (app (exec (handle host s) w)) = modeStep (mCaffeineMode (app w)) s.
Proof.
  destruct s as [mode| |dialog|uMsg wParam|uMsg wParam]; simpl handle; simpl modeStep.
  - apply SetCaffeineMode_mode.
  - unfold ToggleCaffeineMode. rewrite exec_bind. apply SetCaffeineMode_mode.
  - rewrite exec_bind, exec_ret. apply ShowSettingsDialog_mode.
  - apply quiet_frame, OnCustomMessage_quiet.
  - rewrite exec_bind, exec_ret. apply quiet_frame, OnSystemMessage_quiet.
Qed.

Lemma ShowSettingsDialog_session (host : Host) (dialog : option Settings) (w : World) :
  mSessionState (app (exec (ShowSettingsDialog host dialog) w)) = mSessionState (app w).
Proof.
  destruct dialog as [new|]; [|reflexivity].
  rewrite ShowSettingsDialog_exec.
  exact (proj1 (proj2 (UpdateExecutionState_frame host _ _))).
Qed.

Lemma handle_session (host : Host) (s : Stimulus) (w : World) :
  mSessionState (app (exec (handle host s) w)) = sessionStep (mSessionState (app w)) s.
Proof.
  destruct s as [mode| |dialog|uMsg wParam|uMsg wParam];
    simpl handle; unfold sessionStep; simpl sessionOf.
  - apply SetCaffeineMode_session.
  - unfold ToggleCaffeineMode. rewrite exec_bind. apply SetCaffeineMode_session.
  - rewrite exec_bind, exec_ret. apply ShowSettingsDialog_session.
  - unfold OnCustomMessage. destruct (uMsg =? _); [|reflexivity].
    destruct (negb _); apply UpdateExecutionState_frame.
  - rewrite exec_bind, exec_ret. unfold OnSystemMessage.
    destruct (uMsg =? _); [|reflexivity].
    destruct (wParam =? WTS_SESSION_LOCK); [|destruct (wParam =? WTS_SESSION_UNLOCK)].
    3: reflexivity.
    all: rewrite !exec_bind, exec_ret, exec_assign, RefreshExecutionState_exec;
      exact (proj1 (proj2 (UpdateExecutionState_frame host _ _))).
Qed.

Lemma run_mode (host : Host) (stimuli : list Stimulus) (w : World) :
  mCaffeineMode (app (run host stimuli w))
  = fold_left modeStep stimuli (mCaffeineMode (app w)).
Proof.
  revert w. induction stimuli as [|s rest IH]; intros w; simpl; [reflexivity|].
  now rewrite IH, handle_mode.
Qed.

Lemma run_session (host : Host) (stimuli : list Stimulus) (w : World) :
  mSessionState (app (run host stimuli w))
  = fold_left sessionStep stimuli (mSessionState (app w)).
Proof.
  revert w. induction stimuli as [|s rest IH]; intros w; simpl; [reflexivity|].
  now rewrite IH, handle_session.
Qed.

(** X14: the mode and the session state follow the stimuli and nothing
    else.  After a run the mode is the one the mode choices and the toggles
    among the stimuli lead to, and the session state is the one announced by
    the last lock or unlock message (the one before the run if there was
    none): the answers of the system, the reports of the policies and the
    settings play no part, so two hosts agree on both. *)
Theorem run_mode_session (host host' : Host) (stimuli : list Stimulus) (w : World) :
  mCaffeineMode (app (run host stimuli w))
    = fold_left modeStep stimuli (mCaffeineMode (app w)) /\
  mSessionState (app (run host stimuli w))
    = fold_left sessionStep stimuli (mSessionState (app w)) /\
  mCaffeineMode (app (run host stimuli w)) = mCaffeineMode (app (run host' stimuli w)) /\
  mSessionState (app (run host stimuli w)) = mSessionState (app (run host' stimuli w)).
Proof.
  repeat split; rewrite ?run_mode, ?run_session; reflexivity.
Qed.

(** ** When a refresh does nothing *)

(** X15: [RefreshExecutionState] does nothing at all (no call of the
    system, no icon, no tip, no field changed) exactly when the mode is
    Disabled or the recorded display flag is the one the mode asks for.  In
    Disabled mode, therefore, a lock or an unlock changes the session state
    and nothing else. *)
Theorem RefreshExecutionState_idle (host : Host) (w : World) :
  (RefreshExecutionState host w = (tt, w) <->
     mCaffeineMode (app w) = CaffeineMode.Disabled \/
     mKeepDisplayOn (app w) = desiredKeepDisplayOn (app w)) /\
  (mCaffeineMode (app w) = CaffeineMode.Disabled ->
     forall wParam session,
       (wParam = WTS_SESSION_LOCK /\ session = SessionState.Locked) \/
       (wParam = WTS_SESSION_UNLOCK /\ session = SessionState.Unlocked) ->
       exec (OnSystemMessage host WM_WTSSESSION_CHANGE wParam) w
       = mkWorld (set_mSessionState session (app w)) (effects w)).
Proof.
  assert (Hrefresh : forall v,
    RefreshExecutionState host v
    = (tt, if noNeed (app v) (mCaffeineState (app v)) then v
           else published host (mCaffeineState (app v)) v)).
  { intros v. unfold RefreshExecutionState, bind, this. simpl.
    apply UpdateExecutionState_eq. }
  assert (Hnn : noNeed (app w) (mCaffeineState (app w)) = true <->
                mCaffeineMode (app w) = CaffeineMode.Disabled \/
                mKeepDisplayOn (app w) = desiredKeepDisplayOn (app w)).
  { unfold noNeed. rewrite CaffeineState_eqb_refl.
    destruct (mCaffeineMode (app w)); simpl; rewrite ?eqb_true_iff;
      split; auto; intros [H|H]; (discriminate || auto). }
  split.
  - rewrite Hrefresh, <- Hnn.
    destruct (noNeed (app w) (mCaffeineState (app w))) eqn:En; [tauto|].
    split; [|discriminate]. intros H. exfalso.
    injection H as H. apply (f_equal (fun v => length (effects v))) in H.
    unfold published in H.
    destruct (_ =? 0) in H; [simpl in H; lia|].
    rewrite exec_bind, UpdateIcon_exec, UpdateTip_exec in H. simpl in H. lia.
  - intros Hd wParam session Hcase.
    rewrite (OnSystemMessage_exec host wParam session w Hcase).
    unfold exec. rewrite UpdateExecutionState_eq. unfold noNeed. simpl.
    now rewrite Hd, CaffeineState_eqb_refl.
Qed.

Lemma RefreshExecutionState_idle_witness :
  exec (OnSystemMessage (specHost accepting) WM_WTSSESSION_CHANGE WTS_SESSION_LOCK)
       (worldOf CaffeineMode.Disabled SessionState.Unlocked CaffeineState.Inactive true)
  = worldOf CaffeineMode.Disabled SessionState.Locked CaffeineState.Inactive true.
Proof.
  exact (proj2 (RefreshExecutionState_idle (specHost accepting)
    (worldOf CaffeineMode.Disabled SessionState.Unlocked CaffeineState.Inactive true))
    eq_refl WTS_SESSION_LOCK SessionState.Locked (or_introl (conj eq_refl eq_refl))).
Defined.
